(** * scrape_memorial.py: the memorial extraction pipeline

    A shallow embedding of [scrape_memorial.py].  The script is a linear
    sequence of [try]/[except] blocks over three pieces of global state: the
    error log [errors.txt], the name [main_fields] (unbound until Step 4
    assigns it) and the workbook it writes.  The blocks become computations in
    a small state-and-exception monad, in the order of the script.

    The script starts from [soup], the tree Beautiful Soup built from the
    fetched page, so the tree is the input here.  Two library calls take text
    and are left as parameters of the pipeline: [js2py.eval_js] and
    [BeautifulSoup(text, "html.parser")] on the full name.  [Js] and [Html]
    give reference implementations of them for a documented fragment. *)

From Stdlib Require Import Ascii String SpecFloat.
From stdpp Require Import gmap strings list fin_maps.

Open Scope string_scope.

(** ** Python strings

    A string is a sequence of ASCII characters; white space outside ASCII
    is not modelled. *)

Module Str.

(** [str.isspace] on the ASCII range; [\s] of [re] on [str] patterns is the
    same set. *)
Definition is_space (c : ascii) : bool :=
  let n := N_of_ascii c in
  ((9 <=? n) && (n <=? 13) || (28 <=? n) && (n <=? 32))%N.

Definition is_alpha (c : ascii) : bool :=
  let n := N_of_ascii c in
  ((65 <=? n) && (n <=? 90) || (97 <=? n) && (n <=? 122))%N.

Definition is_digit (c : ascii) : bool :=
  let n := N_of_ascii c in ((48 <=? n) && (n <=? 57))%N.

Definition lower_char (c : ascii) : ascii :=
  let n := N_of_ascii c in
  if ((65 <=? n) && (n <=? 90))%N then ascii_of_N (n + 32) else c.

Fixpoint lower (s : string) : string :=
  match s with
  | EmptyString => EmptyString
  | String c r => String (lower_char c) (lower r)
  end.

Fixpoint lstrip (s : string) : string :=
  match s with
  | EmptyString => EmptyString
  | String c r => if is_space c then lstrip r else s
  end.

Fixpoint rstrip (s : string) : string :=
  match s with
  | EmptyString => EmptyString
  | String c r =>
      match rstrip r with
      | EmptyString => if is_space c then EmptyString else String c EmptyString
      | r' => String c r'
      end
  end.

(** [s.strip()] *)
Definition strip (s : string) : string := rstrip (lstrip s).

Definition is_empty (s : string) : bool :=
  match s with EmptyString => true | _ => false end.

(** [sep.join(l)] *)
Definition join (sep : string) (l : list string) : string :=
  String.concat sep l.

(** [s.startswith(p)] *)
Definition startswith (p s : string) : bool := String.prefix p s.

(** [c in s] *)
Fixpoint contains (c : ascii) (s : string) : bool :=
  match s with
  | EmptyString => false
  | String d r => if Ascii.eqb c d then true else contains c r
  end.

(** [s.split()]: the maximal runs of non-whitespace characters. *)
Fixpoint split_ws_from (cur : string) (s : string) : list string :=
  match s with
  | EmptyString => if is_empty cur then [] else [cur]
  | String c r =>
      if is_space c
      then (if is_empty cur then split_ws_from "" r
            else cur :: split_ws_from "" r)
      else split_ws_from (cur ++ String c "") r
  end.

Definition split_ws (s : string) : list string := split_ws_from "" s.

Fixpoint all_chars (p : ascii -> bool) (s : string) : bool :=
  match s with
  | EmptyString => true
  | String c r => p c && all_chars p r
  end.

(** A string that is not empty and that [strip] leaves as it is. *)
Definition tidy (s : string) : Prop :=
  s <> "" /\ lstrip s = s /\ rstrip s = s.

(** No [<] and no [&]: text that holds no markup. *)
Definition markup_free (s : string) : bool :=
  negb (contains "<" s) && negb (contains "&" s).

End Str.

(** ** Python values, exceptions, and the script's state *)

(** The values the script handles.  [eval_js] converts what the JavaScript
    evaluates to with [to_python]: [undefined] and [null] become [None], a
    whole number an [int], any other number a [float], and an object or array a
    [JsObjectWrapper], here [PyJsObject] with its own properties. *)
#[warnings="-register-all"]
Inductive pyval :=
| PyNone
| PyBool (b : bool)
| PyInt (z : Z)
| PyFloat (f : spec_float)
| PyStr (s : string)
| PyJsObject (props : gmap string pyval).

(** Subclasses of [Exception], with the text [str(e)] gives. *)
Inductive exn :=
| ValueError (msg : string)
| TypeError (msg : string)
| AttributeError (msg : string)
| NameError (msg : string)
| KeyError (msg : string)
| LibraryError (cls msg : string).

Definition exn_str (e : exn) : string :=
  match e with
  | ValueError m | TypeError m | AttributeError m | NameError m | KeyError m
  | LibraryError _ m => m
  end.

(** What a call does: return a value or raise an [Exception]. *)
Inductive result (A : Type) :=
| Ok (a : A)
| Raise (e : exn).
Arguments Ok {A} a.
Arguments Raise {A} e.

#[global] Instance result_ret : MRet result := fun A a => Ok a.
#[global] Instance result_bind : MBind result :=
  fun A B k r => match r with Ok a => k a | Raise e => Raise e end.

(** What a statement does: finish, raise an [Exception], or raise
    [SystemExit], which [except Exception] does not catch. *)
Inductive outcome (A : Type) :=
| Returns (a : A)
| Raises (e : exn)
| Exits (msg : string).
Arguments Returns {A} a.
Arguments Raises {A} e.
Arguments Exits {A} msg.

(** The one-row table [pd.DataFrame([main_fields])]: column name to cell. *)
Abbreviation record := (gmap string pyval).

Record state := State {
  errors_txt : list string;       (* what [log_error] appended, in order *)
  main_fields : option record;    (* [None]: the name is not bound *)
  xlsx : option record            (* the sheet written, if any *)
}.

Definition initial : state :=
  {| errors_txt := []; main_fields := None; xlsx := None |}.

Definition M (A : Type) : Type := state -> outcome A * state.

Definition bind {A B} (m : M A) (k : A -> M B) : M B :=
  fun st =>
    match m st with
    | (Returns a, st') => k a st'
    | (Raises e, st') => (Raises e, st')
    | (Exits msg, st') => (Exits msg, st')
    end.

(** [raise SystemExit(msg)] *)
Definition system_exit {A} (msg : string) : M A := fun st => (Exits msg, st).

(** A call that returns or raises, without touching the state. *)
Definition call {A} (r : result A) : M A :=
  fun st =>
    match r with
    | Ok a => (Returns a, st)
    | Raise e => (Raises e, st)
    end.

(** [try: body / except Exception as e: handler(e)].  What the body did to
    the state before it raised stays done. *)
Definition try_except {A} (body : M A) (handler : exn -> M A) : M A :=
  fun st =>
    match body st with
    | (Raises e, st') => handler e st'
    | other => other
    end.

Notation "'do' x <- m ; k" := (bind m (fun x => k))
  (at level 10, x name, m at level 100, k at level 200).
Notation "m >> k" := (bind m (fun _ => k))
  (at level 100, k at level 200, right associativity).

(** [log_error(msg)]: append [msg.strip() + "\n"] to [errors.txt]. *)
Definition log_line (msg : string) : string :=
  Str.strip msg ++ String "010" "".

Definition log_error (msg : string) : M unit :=
  fun st =>
    (Returns tt, {| errors_txt := errors_txt st ++ [log_line msg];
                    main_fields := main_fields st;
                    xlsx := xlsx st |}).

Definition name_error_main_fields : exn :=
  NameError "name 'main_fields' is not defined".

(** Reading the name [main_fields]. *)
Definition load_main_fields : M record :=
  fun st =>
    match main_fields st with
    | Some mf => (Returns mf, st)
    | None => (Raises name_error_main_fields, st)
    end.

(** [main_fields = d] *)
Definition assign_main_fields (d : record) : M unit :=
  fun st =>
    (Returns tt, {| errors_txt := errors_txt st;
                    main_fields := Some d;
                    xlsx := xlsx st |}).

(** [main_fields[key] = value]: the dictionary the name is bound to gets
    the entry. *)
Definition setitem (key : string) (value : pyval) : M unit :=
  do mf <- load_main_fields;
  assign_main_fields (<[key := value]> mf).

(** The process exit status: 0 when the script runs to its end, 1 after
    [SystemExit] with a message or an uncaught exception. *)
Definition exit_status {A} (r : outcome A) : Z :=
  match r with Returns _ => 0 | _ => 1 end.

(** ** Beautiful Soup trees *)

Module Bs4.

(** A page element.  [Comment] stands for every string that is not page
    text (comments, declarations, processing instructions): [get_text]
    skips those.  The text of a [script] element is a [NavigableString] or, for
    the versions of Beautiful Soup that keep it out of [get_text], a
    [Comment]; [.string] returns either.  [attrs] is the tag's attribute
    dictionary; [class] is kept as written and split where it is matched. *)
#[warnings="-register-all"]
Inductive node :=
| NavigableString (s : string)
| Comment (s : string)
| Tag (name : string) (attrs : list (string * string)) (contents : list node).

(** A [BeautifulSoup] object: the contents of the document. *)
Abbreviation soup := (list node).

(** [tag.descendants]: every element below, in document order. *)
Fixpoint below (n : node) : list node :=
  match n with
  | Tag _ _ cs => flat_map (fun c => c :: below c) cs
  | _ => []
  end.

Definition descendants (cs : list node) : list node :=
  flat_map (fun c => c :: below c) cs.

Definition contents (n : node) : list node :=
  match n with Tag _ _ cs => cs | _ => [] end.

(** [tag.get(key)] *)
Fixpoint get_attr (key : string) (attrs : list (string * string))
  : option string :=
  match attrs with
  | [] => None
  | (k, v) :: r => if String.eqb k key then Some v else get_attr key r
  end.

Definition is_tag (name : string) (n : node) : bool :=
  match n with Tag nm _ _ => String.eqb nm name | _ => false end.

(** [attrs={key: value}] with a string: the attribute equals it. *)
Definition attr_is (key value : string) (n : node) : bool :=
  match n with
  | Tag _ attrs _ =>
      match get_attr key attrs with
      | Some v => String.eqb v value
      | None => false
      end
  | _ => false
  end.

(** [key=True]: the attribute is there, whatever its value. *)
Definition has_attr (key : string) (n : node) : bool :=
  match n with
  | Tag _ attrs _ =>
      match get_attr key attrs with Some _ => true | None => false end
  | _ => false
  end.

(** [class_=c]: [c] is one of the whitespace-separated classes. *)
Definition has_class (c : string) (n : node) : bool :=
  match n with
  | Tag _ attrs _ =>
      match get_attr "class" attrs with
      | Some v => existsb (String.eqb c) (Str.split_ws v)
      | None => false
      end
  | _ => false
  end.

(** [find_all] with a filter: the matching descendants in document order;
    [find] is the first of them. *)
Definition find_all (p : node -> bool) (cs : list node) : list node :=
  List.filter p (descendants cs).

Definition find (p : node -> bool) (cs : list node) : option node :=
  head (find_all p cs).

(** [tag.string]: the single string below a chain of only children. *)
Fixpoint tag_string (n : node) : option string :=
  match n with
  | Tag _ _ [c] =>
      match c with
      | NavigableString s | Comment s => Some s
      | Tag _ _ _ => tag_string c
      end
  | _ => None
  end.

(** The strings [get_text(strip=True)] keeps: each page-text string
    stripped, the empty ones dropped. *)
Definition stripped_strings (cs : list node) : list string :=
  flat_map (fun n =>
              match n with
              | NavigableString s =>
                  if Str.is_empty (Str.strip s) then [] else [Str.strip s]
              | _ => []
              end) (descendants cs).

(** [get_text(strip=True)], default separator [""]. *)
Definition get_text_strip (cs : list node) : string :=
  Str.join "" (stripped_strings cs).

(** [for el in soup.select(sel): el.decompose()]: every element the
    selector matches is taken out with all it contains. *)
Fixpoint decompose (p : node -> bool) (n : node) : node :=
  match n with
  | Tag nm at_ cs =>
      Tag nm at_ (flat_map (fun c => if p c then [] else [decompose p c]) cs)
  | _ => n
  end.

Definition decompose_all (p : node -> bool) (cs : list node) : list node :=
  flat_map (fun c => if p c then [] else [decompose p c]) cs.

(** [tag.get_text(strip=True)] *)
Definition text_of (n : node) : string := get_text_strip (contents n).

(** The CSS selector [span.prefix]; selectors compare element names of an
    HTML document without regard to case. *)
Definition span_prefix (n : node) : bool :=
  match n with
  | Tag nm _ _ => String.eqb (Str.lower nm) "span" && has_class "prefix" n
  | _ => false
  end.

End Bs4.

(** ** The two regular expressions of Step 3 *)

Module Re.

(** A literal: the rest of [s] after [p], when [s] starts with [p]. *)
Fixpoint lit (p s : string) : option string :=
  match p, s with
  | EmptyString, _ => Some s
  | String a p', String b s' => if Ascii.eqb a b then lit p' s' else None
  | String _ _, EmptyString => None
  end.

(** [\s*] before a character that is not white space: greedy, and giving
    back white space cannot help, so it takes all of it. *)
Definition spaces (s : string) : string := Str.lstrip s.

(** [\s+] before a character that is not white space. *)
Definition spaces1 (s : string) : option string :=
  match s with
  | String c r => if Str.is_space c then Some (spaces r) else None
  | EmptyString => None
  end.

(** [var\s+findagrave\s*=] at the start of [s]; the rest of [s]. *)
Definition decl_here (s : string) : option string :=
  r ← lit "var" s; r ← spaces1 r; r ← lit "findagrave" r; lit "=" (spaces r).

(** [re.compile(r"var\s+findagrave\s*=").search(s)] finds a match. *)
Fixpoint search_decl (s : string) : bool :=
  match decl_here s with
  | Some _ => true
  | None =>
      match s with
      | EmptyString => false
      | String _ r => search_decl r
      end
  end.

(** The rest of the pattern after [.*?]: the closing brace of the group and
    [;\s*var\s+htmlSnippets], at the start of [s]. *)
Definition closing_here (s : string) : bool :=
  match (r ← lit "};" s; r ← lit "var" (spaces r); r ← spaces1 r;
         lit "htmlSnippets" r) with
  | Some _ => true
  | None => false
  end.

(** [.*?] under [re.DOTALL]: the shortest run of any characters after
    which the rest of the pattern matches; [acc] is what it has taken. *)
Fixpoint lazy_any (acc s : string) : option string :=
  if closing_here s then Some acc
  else match s with
       | EmptyString => None
       | String c r => lazy_any (acc ++ String c "") r
       end.

(** The whole pattern at the start of [s]; the result is group 1. *)
Definition object_here (s : string) : option string :=
  r ← decl_here s; r ← lit "{" (spaces r); body ← lazy_any "" r;
  Some ("{" ++ body ++ "}").

(** [re.search(r"var\s+findagrave\s*=\s*({.*?});\s*var\s+htmlSnippets",
    s, re.DOTALL)]: group 1 of the leftmost match. *)
Fixpoint search_object (s : string) : option string :=
  match object_here s with
  | Some g => Some g
  | None =>
      match s with
      | EmptyString => None
      | String _ r => search_object r
      end
  end.

End Re.

(** ** pandas: dropping columns *)

Module Pandas.

Inductive errors_mode := ErrorsRaise | ErrorsIgnore.

(** [repr] of a list of labels. *)
Definition labels_repr (l : list string) : string :=
  "[" ++ Str.join ", " (map (fun c => "'" ++ c ++ "'") l) ++ "]".

(** [df.drop(columns=cols, errors=mode)]: with [errors='raise'] a label that
    is not a column is a [KeyError]; with [errors='ignore'] only the labels
    that are columns are dropped. *)
Definition drop (cols : list string) (mode : errors_mode) (df : record)
  : result record :=
  let missing :=
    List.filter (fun c => match df !! c with None => true | _ => false end)
                cols in
  match mode, missing with
  | ErrorsRaise, _ :: _ =>
      Raise (KeyError (String "034" (labels_repr missing
                                       ++ " not found in axis"
                                       ++ String "034" EmptyString)))
  | _, _ => Ok (foldr delete df cols)
  end.

End Pandas.

(** ** Reference implementations of the two text-taking library calls

    They cover the inputs the examples below use and are exact there; the
    statements about every page do not depend on them. *)

Module Html.

Import Bs4.

(** [html.parser] events. *)
Inductive token :=
| TData (s : string)
| TStart (name : string) (attrs : list (string * string)) (closed : bool)
| TEnd (name : string)
| TComment (s : string).

(** The tokenizer reads character by character.  It is exact on character
    data without [&]; on a [<] that is not followed by a letter, [/], [!] or
    [?], which is character data; on start tags [<name k="v" k='v' k=v k>],
    also closed by [/>]; and on end tags [</name>].  A tag the input ends in
    is dropped.  Outside this fragment it is an approximation: character
    references are left as written, a comment, declaration or processing
    instruction runs to the next [>], and the content of [script] and [style]
    is read like any other. *)
Inductive lstate :=
| LData
| LOpen
| LName (name : string)
| LBefore (name : string) (attrs : list (string * string))
| LAttr (name : string) (attrs : list (string * string)) (key : string)
| LAfterAttr (name : string) (attrs : list (string * string)) (key : string)
| LEq (name : string) (attrs : list (string * string)) (key : string)
| LQuoted (name : string) (attrs : list (string * string)) (key : string)
          (q : ascii) (val : string)
| LBare (name : string) (attrs : list (string * string)) (key val : string)
| LSlash (name : string) (attrs : list (string * string))
| LEndOpen
| LEndName (name : string)
| LEndRest (name : string)
| LSkip (text : string).

Definition snoc (s : string) (c : ascii) : string := s ++ String c "".

(** The characters that end the name of a tag. *)
Definition ends_name (c : ascii) : bool :=
  Ascii.eqb c "009" || Ascii.eqb c "010" || Ascii.eqb c "013"
  || Ascii.eqb c "012" || Ascii.eqb c " " || Ascii.eqb c "000".

Definition data_token (acc : string) : list token :=
  if Str.is_empty acc then [] else [TData acc].

Definition start_token (name : string) (attrs : list (string * string))
  (closed : bool) : token :=
  TStart (Str.lower name) attrs closed.

Definition add_attr (attrs : list (string * string)) (key val : string)
  : list (string * string) :=
  attrs ++ [(Str.lower key, val)].

(** [acc] is the character data read since the last event. *)
Fixpoint lex (st : lstate) (acc : string) (s : string) : list token :=
  match s with
  | EmptyString =>
      match st with
      | LData => data_token acc
      | LOpen => data_token (snoc acc "<")
      | LEndOpen => data_token (acc ++ "</")
      | LSkip text => [TComment text]
      | _ => []
      end
  | String c r =>
      match st with
      | LData =>
          if Ascii.eqb c "<" then lex LOpen acc r else lex LData (snoc acc c) r
      | LOpen =>
          if Str.is_alpha c then data_token acc ++ lex (LName (String c "")) "" r
          else if Ascii.eqb c "/" then lex LEndOpen acc r
          else if Ascii.eqb c "!" || Ascii.eqb c "?"
               then data_token acc ++ lex (LSkip "") "" r
          else if Ascii.eqb c "<" then lex LOpen (snoc acc "<") r
          else lex LData (snoc (snoc acc "<") c) r
      | LName name =>
          if Ascii.eqb c ">" then start_token name [] false :: lex LData "" r
          else if Ascii.eqb c "/" then lex (LSlash name []) "" r
          else if ends_name c then lex (LBefore name []) "" r
          else lex (LName (snoc name c)) "" r
      | LBefore name attrs =>
          if Ascii.eqb c ">" then start_token name attrs false :: lex LData "" r
          else if Ascii.eqb c "/" then lex (LSlash name attrs) "" r
          else if Str.is_space c then lex (LBefore name attrs) "" r
          else lex (LAttr name attrs (String c "")) "" r
      | LAttr name attrs key =>
          if Ascii.eqb c ">"
          then start_token name (add_attr attrs key "") false :: lex LData "" r
          else if Ascii.eqb c "/" then lex (LSlash name (add_attr attrs key "")) "" r
          else if Ascii.eqb c "=" then lex (LEq name attrs key) "" r
          else if Str.is_space c then lex (LAfterAttr name attrs key) "" r
          else lex (LAttr name attrs (snoc key c)) "" r
      | LAfterAttr name attrs key =>
          if Ascii.eqb c ">"
          then start_token name (add_attr attrs key "") false :: lex LData "" r
          else if Ascii.eqb c "/" then lex (LSlash name (add_attr attrs key "")) "" r
          else if Ascii.eqb c "=" then lex (LEq name attrs key) "" r
          else if Str.is_space c then lex (LAfterAttr name attrs key) "" r
          else lex (LAttr name (add_attr attrs key "") (String c "")) "" r
      | LEq name attrs key =>
          if Ascii.eqb c "034" || Ascii.eqb c "'"
          then lex (LQuoted name attrs key c "") "" r
          else if Ascii.eqb c ">"
          then start_token name (add_attr attrs key "") false :: lex LData "" r
          else if Str.is_space c || Ascii.eqb c "=" then lex (LEq name attrs key) "" r
          else lex (LBare name attrs key (String c "")) "" r
      | LQuoted name attrs key q val =>
          if Ascii.eqb c q then lex (LBefore name (add_attr attrs key val)) "" r
          else lex (LQuoted name attrs key q (snoc val c)) "" r
      | LBare name attrs key val =>
          if Ascii.eqb c ">"
          then start_token name (add_attr attrs key val) false :: lex LData "" r
          else if Str.is_space c then lex (LBefore name (add_attr attrs key val)) "" r
          else lex (LBare name attrs key (snoc val c)) "" r
      | LSlash name attrs =>
          if Ascii.eqb c ">" then start_token name attrs true :: lex LData "" r
          else if Ascii.eqb c "/" then lex (LSlash name attrs) "" r
          else if Str.is_space c then lex (LBefore name attrs) "" r
          else lex (LAttr name attrs (String c "")) "" r
      | LEndOpen =>
          if Str.is_alpha c
          then data_token acc ++ lex (LEndName (String c "")) "" r
          else if Ascii.eqb c ">" then lex LData acc r
          else data_token acc ++ lex (LSkip (String c "")) "" r
      | LEndName name =>
          if Ascii.eqb c ">" then TEnd (Str.lower name) :: lex LData "" r
          else if ends_name c || Ascii.eqb c "/" then lex (LEndRest name) "" r
          else lex (LEndName (snoc name c)) "" r
      | LEndRest name =>
          if Ascii.eqb c ">" then TEnd (Str.lower name) :: lex LData "" r
          else lex (LEndRest name) "" r
      | LSkip text =>
          if Ascii.eqb c ">" then TComment text :: lex LData "" r
          else lex (LSkip (snoc text c)) "" r
      end
  end.

Definition tokenize (s : string) : list token := lex LData "" s.

(** The attribute dictionary of a tag: a repeated attribute keeps its last
    value. *)
Fixpoint attr_dict (attrs : list (string * string)) : list (string * string) :=
  match attrs with
  | [] => []
  | (k, v) :: r =>
      match get_attr k r with
      | Some _ => attr_dict r
      | None => (k, v) :: attr_dict r
      end
  end.

(** [HTMLTreeBuilder.empty_element_tags] *)
Definition empty_element_tags : list string :=
  ["area"; "base"; "br"; "col"; "embed"; "hr"; "img"; "input"; "keygen";
   "link"; "menuitem"; "meta"; "param"; "source"; "track"; "wbr";
   "basefont"; "bgsound"; "command"; "frame"; "image"; "isindex"; "nextid";
   "spacer"].

Definition is_empty_element (name : string) : bool :=
  existsb (String.eqb name) empty_element_tags.

(** An open tag with the children it has so far, last first. *)
Definition frame : Type := string * list (string * string) * list node.

(** [popTag]: the innermost open tag is closed into its parent; [top] are
    the children of the document, last first. *)
Definition pop (stack : list frame) (top : list node)
  : list frame * list node :=
  match stack with
  | [] => ([], top)
  | (nm, at_, kids) :: rest =>
      let t := Tag nm at_ (rev kids) in
      match rest with
      | [] => ([], t :: top)
      | (nm', at', kids') :: rest' => ((nm', at', t :: kids') :: rest', top)
      end
  end.

(** [_popToTag]: close open tags up to and including the innermost one
    called [name]. *)
Fixpoint pop_to (name : string) (stack : list frame) (top : list node)
  (n : nat) : list frame * list node :=
  match n, stack with
  | S n', (nm, _, _) :: _ =>
      let '(stack', top') := pop stack top in
      if String.eqb nm name then (stack', top') else pop_to name stack' top' n'
  | _, _ => (stack, top)
  end.

Fixpoint close_all (stack : list frame) (top : list node) (n : nat)
  : list node :=
  match n with
  | S n' => let '(stack', top') := pop stack top in close_all stack' top' n'
  | O => top
  end.

Definition is_open (name : string) (stack : list frame) : bool :=
  existsb (fun f => String.eqb (fst (fst f)) name) stack.

Definition add_child (n : node) (stack : list frame) (top : list node)
  : list frame * list node :=
  match stack with
  | [] => ([], n :: top)
  | (nm, at_, kids) :: rest => ((nm, at_, n :: kids) :: rest, top)
  end.

Definition ascii_space (c : ascii) : bool :=
  Ascii.eqb c " " || Ascii.eqb c "010" || Ascii.eqb c "009"
  || Ascii.eqb c "012" || Ascii.eqb c "013".

(** [endData]: a string of ASCII spaces only becomes one space or one line
    break, except inside [pre] and [textarea]. *)
Definition end_data (stack : list frame) (s : string) : string :=
  if Str.all_chars ascii_space s && negb (is_open "pre" stack)
     && negb (is_open "textarea" stack)
  then (if Str.contains "010" s then String "010" "" else " ")
  else s.

Fixpoint build (toks : list token) (stack : list frame) (top : list node)
  : list node :=
  match toks with
  | [] => rev (close_all stack top (length stack))
  | TData s :: r =>
      let '(stack', top') :=
        add_child (NavigableString (end_data stack s)) stack top in
      build r stack' top'
  | TStart name attrs closed :: r =>
      if closed || is_empty_element name
      then let '(stack', top') :=
             add_child (Tag name (attr_dict attrs) []) stack top in
           build r stack' top'
      else build r ((name, attr_dict attrs, []) :: stack) top
  | TEnd name :: r =>
      if is_open name stack
      then let '(stack', top') := pop_to name stack top (length stack) in
           build r stack' top'
      else build r stack top
  | TComment s :: r =>
      let '(stack', top') := add_child (Comment s) stack top in
      build r stack' top'
  end.

(** [BeautifulSoup(s, "html.parser")] *)
Definition parse (s : string) : soup := build (tokenize s) [] [].

(** The document of a text that holds no markup: nothing when the text is
    empty, and else the one string. *)
Definition text_document (t : string) : soup :=
  if Str.is_empty t then [] else [NavigableString (end_data [] t)].

End Html.

Module Js.

(** The evaluator is exact on the program Step 3 builds around an object
    literal whose property names are quoted or plain identifiers and whose
    values are string literals with the single-character escapes, decimal
    integers of magnitude up to [2^53], [true], [false] and [null].  Anything
    else it refuses with an exception, which [js2py] need not do. *)

Definition is_ws (c : ascii) : bool :=
  Ascii.eqb c " " || Ascii.eqb c "009" || Ascii.eqb c "010"
  || Ascii.eqb c "011" || Ascii.eqb c "012" || Ascii.eqb c "013".

Fixpoint skip_ws (s : string) : string :=
  match s with
  | String c r => if is_ws c then skip_ws r else s
  | EmptyString => s
  end.

Definition is_ident_char (c : ascii) : bool :=
  Str.is_alpha c || Str.is_digit c || Ascii.eqb c "_" || Ascii.eqb c "$".

(** The character a single-character escape stands for. *)
Definition escape (c : ascii) : option ascii :=
  if Ascii.eqb c "034" || Ascii.eqb c "'" || Ascii.eqb c "\" || Ascii.eqb c "/"
  then Some c
  else if Ascii.eqb c "n" then Some "010"%char
  else if Ascii.eqb c "t" then Some "009"%char
  else if Ascii.eqb c "r" then Some "013"%char
  else if Ascii.eqb c "b" then Some "008"%char
  else if Ascii.eqb c "f" then Some "012"%char
  else if Ascii.eqb c "v" then Some "011"%char
  else None.

(** A string literal after its opening quote [q]: its value and what
    follows the closing quote. *)
Fixpoint string_lit (q : ascii) (acc : string) (s : string)
  : option (string * string) :=
  match s with
  | EmptyString => None
  | String c r =>
      if Ascii.eqb c q then Some (acc, r)
      else if Ascii.eqb c "\" then
        match r with
        | String e r' =>
            match escape e with
            | Some ch => string_lit q (acc ++ String ch "") r'
            | None => None
            end
        | EmptyString => None
        end
      else if Ascii.eqb c "010" || Ascii.eqb c "013" then None
      else string_lit q (acc ++ String c "") r
  end.

(** The identifier characters [s] starts with, and the rest. *)
Fixpoint ident (acc : string) (s : string) : string * string :=
  match s with
  | String c r =>
      if is_ident_char c then ident (acc ++ String c "") r else (acc, s)
  | EmptyString => (acc, s)
  end.

Definition digit_value (c : ascii) : Z := Z.of_N (N_of_ascii c) - 48.

(** The decimal digits [s] starts with, as a number, and the rest. *)
Fixpoint digits (acc : Z) (s : string) : Z * string :=
  match s with
  | String c r =>
      if Str.is_digit c then digits (10 * acc + digit_value c) r else (acc, s)
  | EmptyString => (acc, s)
  end.

(** A decimal integer literal: no leading zero, nothing of a fraction,
    exponent or identifier after it, exactly a double. *)
Definition integer (s : string) : option (Z * string) :=
  match s with
  | String c r =>
      if Str.is_digit c then
        let '(n, rest) := digits 0 s in
        let bad_next :=
          match rest with
          | String d _ => is_ident_char d || Ascii.eqb d "."
          | EmptyString => false
          end in
        let leading_zero :=
          Ascii.eqb c "0" && match r with
                             | String d _ => Str.is_digit d
                             | EmptyString => false
                             end in
        if bad_next || leading_zero || (2 ^ 53 <? n)%Z then None
        else Some (n, rest)
      else None
  | EmptyString => None
  end.

(** A keyword, not followed by more of an identifier. *)
Definition keyword (k : string) (s : string) : option string :=
  match Re.lit k s with
  | Some rest =>
      match rest with
      | String d _ => if is_ident_char d then None else Some rest
      | EmptyString => Some rest
      end
  | None => None
  end.

(** A property value, converted as [to_python] does. *)
Definition value (s : string) : option (pyval * string) :=
  match s with
  | String c r =>
      if Ascii.eqb c "034" || Ascii.eqb c "'" then
        '(v, rest) ← string_lit c "" r; Some (PyStr v, rest)
      else if Ascii.eqb c "-" then
        '(n, rest) ← integer (skip_ws r); Some (PyInt (- n), rest)
      else if Str.is_digit c then
        '(n, rest) ← integer s; Some (PyInt n, rest)
      else
        match keyword "true" s, keyword "false" s, keyword "null" s with
        | Some rest, _, _ => Some (PyBool true, rest)
        | _, Some rest, _ => Some (PyBool false, rest)
        | _, _, Some rest => Some (PyNone, rest)
        | _, _, _ => None
        end
  | EmptyString => None
  end.

(** A property name. *)
Definition property_name (s : string) : option (string * string) :=
  match s with
  | String c r =>
      if Ascii.eqb c "034" || Ascii.eqb c "'" then string_lit c "" r
      else if Str.is_digit c then None
      else if is_ident_char c then Some (ident "" s)
      else None
  | EmptyString => None
  end.

(** The properties after the opening brace or a comma, up to the closing
    brace; a later property of the same name replaces the earlier one. *)
Fixpoint properties (fuel : nat) (acc : gmap string pyval) (s : string)
  : option (gmap string pyval * string) :=
  match fuel with
  | O => None
  | S fuel' =>
      match skip_ws s with
      | String "}" rest => Some (acc, rest)
      | s1 =>
          '(k, s2) ← property_name s1;
          if String.eqb k "__proto__" then None else
          s3 ← Re.lit ":" (skip_ws s2);
          '(v, s4) ← value (skip_ws s3);
          match skip_ws s4 with
          | String "," s5 => properties fuel' (<[k := v]> acc) s5
          | String "}" rest => Some (<[k := v]> acc, rest)
          | _ => None
          end
      end
  end.

Definition syntax_error : exn :=
  LibraryError "JsException" "SyntaxError: Line 1: Unexpected token".

(** [js2py.eval_js(code)] *)
Definition eval_js (code : string) : result pyval :=
  match (s ← Re.lit "var findagrave = " code;
         s ← Re.lit "{" (skip_ws s);
         '(props, rest) ← properties (String.length code) ∅ s;
         if String.eqb rest "; findagrave;" then Some props else None) with
  | Some props => Ok (PyJsObject props)
  | None => Raise syntax_error
  end.

End Js.

(** ** The pipeline *)

(** [type(v).__name__] *)
Definition type_name (v : pyval) : string :=
  match v with
  | PyNone => "NoneType"
  | PyBool _ => "bool"
  | PyInt _ => "int"
  | PyFloat _ => "float"
  | PyStr _ => "str"
  | PyJsObject _ => "JsObjectWrapper"
  end.

(** [obj.name].  A [JsObjectWrapper] reads the property from the JavaScript
    object and converts it: a property the object does not have reads as
    [undefined], which converts to [None].  The other values have none of the
    attributes the script asks for. *)
Definition getattr (obj : pyval) (name : string) : result pyval :=
  match obj with
  | PyJsObject props => Ok (default PyNone (props !! name))
  | v => Raise (AttributeError ("'" ++ type_name v
                                ++ "' object has no attribute '" ++ name ++ "'"))
  end.

(** The dictionary display of Step 4 after its first entry: output key and
    the property of [data] it reads, in the order of the source. *)
Definition field_table : list (string * string) :=
  [ ("first_name", "firstName");
    ("last_name", "lastName");
    ("birth_year", "birthYear");
    ("death_year", "deathYear");
    ("death_date", "deathDate");
    ("death_month", "deathMonth");
    ("death_day", "deathDay");
    ("cemetery_name", "cemeteryName");
    ("cemetery_city", "cemeteryCityName");
    ("cemetery_county", "cemeteryCountyName");
    ("cemetery_state", "cemeteryStateName");
    ("cemetery_country", "cemeteryCountryName");
    ("cemetery_latitude", "cemeteryLatitude");
    ("cemetery_longitude", "cemeteryLongitude");
    ("memorial_id", "memorialId");
    ("person_id", "personId");
    ("memorial_contributor_id", "memorialContributorId");
    ("sponsor_contributor_id", "sponsorContributorId");
    ("memorial_url", "linkToShare");
    ("is_famous", "isFamous");
    ("is_cenotaph", "isCenotaph");
    ("has_grave_photo", "intermentHasPhoto");
    ("cover_photo_id", "coverPhotoId");
    ("cover_photo_url", "photoToShare");
    ("default_photo_url", "defaultPhotoToShare");
    ("cemetery_id", "memorialCemeteryId") ].

(** The entries of the display are evaluated in order; the first that raises
    ends it. *)
Fixpoint read_fields (data : pyval) (table : list (string * string))
  : result (list (string * pyval)) :=
  match table with
  | [] => Ok []
  | (out, key) :: rest =>
      v ← getattr data key;
      l ← read_fields data rest;
      Ok ((out, v) :: l)
  end.

Definition columns_to_drop : list string :=
  ["inscription"; "family_parents"; "family_spouses"; "family_children"].

(** The lookups of Steps 5 to 7 on the page. *)
Definition biography (soup : Bs4.soup) : pyval :=
  match Bs4.find (fun n => Bs4.is_tag "div" n && Bs4.attr_is "id" "partBio" n)
                 soup with
  | Some bio_div => PyStr (Bs4.text_of bio_div)
  | None => PyStr ""
  end.

Definition bio_by (soup : Bs4.soup) : pyval :=
  match Bs4.find (fun n => Bs4.is_tag "p" n && Bs4.has_class "text-muted" n)
                 soup with
  | Some contributor =>
      match Bs4.find (Bs4.is_tag "a") (Bs4.contents contributor) with
      | Some a => PyStr (Bs4.text_of a)
      | None => PyStr ""
      end
  | None => PyStr ""
  end.

Definition plot (soup : Bs4.soup) : pyval :=
  match Bs4.find
          (fun n => Bs4.is_tag "span" n && Bs4.attr_is "id" "plotValueLabel" n)
          soup with
  | Some plot_span => PyStr (Bs4.text_of plot_span)
  | None => PyStr ""
  end.

Definition inscription (soup : Bs4.soup) : pyval :=
  match Bs4.find (fun n => Bs4.is_tag "div" n && Bs4.has_class "inscription" n)
                 soup with
  | Some inscription_section => PyStr (Bs4.text_of inscription_section)
  | None => PyStr ""
  end.

Definition family_section (soup : Bs4.soup) : option Bs4.node :=
  Bs4.find
    (fun n => Bs4.is_tag "section" n && Bs4.attr_is "id" "family-members" n)
    soup.

(** The block of one relation inside the family section. *)
Definition rel_block (section : Bs4.node) (relation : string)
  : option Bs4.node :=
  Bs4.find
    (fun n => Bs4.is_tag "div" n && Bs4.attr_is "data-relationship" relation n)
    (Bs4.contents section).

(** [family_links[relation]] after the loop of Step 7. *)
Definition family_links (soup : Bs4.soup) (relation : string) : list string :=
  match family_section soup with
  | Some section =>
      match rel_block section relation with
      | Some block =>
          map Bs4.text_of
              (Bs4.find_all (fun n => Bs4.is_tag "a" n && Bs4.has_attr "href" n)
                            (Bs4.contents block))
      | None => []
      end
  | None => []
  end.

(** The three lists of Step 7, in the order of [family_links]. *)
Definition family (soup : Bs4.soup)
  : list string * list string * list string :=
  (family_links soup "parents",
   family_links soup "spouses",
   family_links soup "children").

(** [main_fields.update({...})] with the three family keys: the name is
    read first, then the display is built. *)
Definition update_family (links : list string * list string * list string)
  : M unit :=
  let '(parents, spouses, children) := links in
  do mf <- load_main_fields;
  assign_main_fields
    (<["family_children" := PyStr (Str.join ", " children)]>
       (<["family_spouses" := PyStr (Str.join ", " spouses)]>
          (<["family_parents" := PyStr (Str.join ", " parents)]> mf))).

(** [to_excel] on the one sheet, then [close].  Failures of the file
    system are outside the model. *)
Definition write_sheet (df : record) : M unit :=
  fun st =>
    (Returns tt, {| errors_txt := errors_txt st;
                    main_fields := main_fields st;
                    xlsx := Some df |}).

(** The [try] blocks of Steps 5 to 7, for any outcome of the lookups in
    their bodies.  The right-hand side of each assignment is evaluated before
    [main_fields] is read. *)
Definition step5_with (bio by_ : result pyval) : M unit :=
  try_except
    (do v <- call bio;
     setitem "biography" v >>
     do w <- call by_;
     setitem "bio_by" w)
    (fun e => log_error ("[DATA] Failed to extract biography info: "
                         ++ exn_str e)).

Definition step5_1_with (plot_value : result pyval) : M unit :=
  try_except
    (do v <- call plot_value;
     setitem "Plot" v)
    (fun e => log_error ("[DATA] Failed to extract Plot: " ++ exn_str e) >>
              setitem "Plot" (PyStr "")).

Definition step6_with (inscription_value : result pyval) : M unit :=
  try_except
    (do v <- call inscription_value;
     setitem "inscription" v)
    (fun e => log_error ("[DATA] Failed to extract inscription: "
                         ++ exn_str e)).

Definition step7_with
  (links : result (list string * list string * list string)) : M unit :=
  try_except
    (do v <- call links;
     update_family v)
    (fun e => log_error ("[DATA] Failed to extract family info: "
                         ++ exn_str e)).

(** Step 10: the frame of the one record, without the dropped columns, is
    written. *)
Definition step10 : M unit :=
  try_except
    (do main_df <- load_main_fields;
     do main_df <- call (Pandas.drop columns_to_drop Pandas.ErrorsIgnore
                                     main_df);
     write_sheet main_df)
    (fun e => log_error ("[SAVE] Failed to save Excel: " ++ exn_str e) >>
              system_exit "Excel save failed. Check errors.txt.").

Section Pipeline.

(** [js2py.eval_js(code)]: the Python value of the last statement, or the
    exception raised. *)
Variable eval_js : string -> result pyval.

(** [BeautifulSoup(text, "html.parser")] on a string. *)
Variable html_parser : string -> Bs4.soup.

(** The filter of [soup.find("script", string=re.compile(...))]: a [script]
    element whose [.string] the pattern is found in. *)
Definition findagrave_script (n : Bs4.node) : bool :=
  Bs4.is_tag "script" n &&
  match Bs4.tag_string n with
  | Some s => Re.search_decl s
  | None => false
  end.

(** The body of the [try] of Step 3: the value of [data]. *)
Definition findagrave_object (soup : Bs4.soup) : result pyval :=
  match Bs4.find findagrave_script soup with
  | None => Raise (ValueError "Missing 'findagrave' JS object")
  | Some script_tag =>
      match Bs4.tag_string script_tag with
      | None =>
          Raise (TypeError
                   "expected string or bytes-like object, got 'NoneType'")
      | Some raw_script =>
          match Re.search_object raw_script with
          | None => Raise (ValueError "Failed to extract 'findagrave' object")
          | Some group1 =>
              eval_js ("var findagrave = " ++ group1 ++ "; findagrave;")
          end
      end
  end.

(** Step 3: the structured data of the page, or the end of the run. *)
Definition step3 (soup : Bs4.soup) : M pyval :=
  try_except
    (call (findagrave_object soup))
    (fun e => log_error ("[CRITICAL] JS parsing failed: " ++ exn_str e) >>
              system_exit "JS parsing failed. Check errors.txt.").

(** The failures of the structured-data block, each with the exception the
    body of Step 3 raises: no [script] element declares [findagrave]; the
    object literal cannot be isolated; it cannot be deserialized. *)
Inductive structured_data_failure (soup : Bs4.soup) : exn -> Prop :=
| missing_block :
    Bs4.find findagrave_script soup = None ->
    structured_data_failure soup (ValueError "Missing 'findagrave' JS object")
| literal_not_isolated script_tag raw_script :
    Bs4.find findagrave_script soup = Some script_tag ->
    Bs4.tag_string script_tag = Some raw_script ->
    Re.search_object raw_script = None ->
    structured_data_failure
      soup (ValueError "Failed to extract 'findagrave' object")
| literal_not_deserialized script_tag raw_script group1 e :
    Bs4.find findagrave_script soup = Some script_tag ->
    Bs4.tag_string script_tag = Some raw_script ->
    Re.search_object raw_script = Some group1 ->
    eval_js ("var findagrave = " ++ group1 ++ "; findagrave;") = Raise e ->
    structured_data_failure soup e.

(** [BeautifulSoup(markup, "html.parser")]: only a string (or bytes, or a
    file) is markup.  The constructor takes [len(markup)] of what has no
    [read], which is a [TypeError] for [None], a number or a boolean; a
    [JsObjectWrapper] answers [read] as it answers any attribute, with [None]
    here, and calling that is a [TypeError] too. *)
Definition BeautifulSoup (markup : pyval) : result Bs4.soup :=
  match markup with
  | PyStr s => Ok (html_parser s)
  | PyJsObject _ => Raise (TypeError "'NoneType' object is not callable")
  | v => Raise (TypeError ("object of type '" ++ type_name v
                           ++ "' has no len()"))
  end.

(** The full name without its prefix spans: what Step 4 does to a string. *)
Definition clean_full_name (soup_name : Bs4.soup) : string :=
  Bs4.get_text_strip (Bs4.decompose_all Bs4.span_prefix soup_name).

Definition cleaned (raw_full_name : string) : string :=
  clean_full_name (html_parser raw_full_name).

(** The right-hand side of the assignment of Step 4. *)
Definition main_fields_display (data : pyval) : result record :=
  raw_full_name ← getattr data "fullName";
  soup_name ← BeautifulSoup raw_full_name;
  let cleaned_full_name := clean_full_name soup_name in
  fields ← read_fields data field_table;
  Ok (list_to_map (("full_name", PyStr cleaned_full_name) :: fields)).

(** Step 4: [main_fields] is bound when the whole display has been
    evaluated, and not before. *)
Definition step4 (data : pyval) : M unit :=
  try_except
    (do d <- call (main_fields_display data);
     assign_main_fields d)
    (fun e => log_error ("[DATA] Failed to extract main_fields: "
                         ++ exn_str e)).

Definition step5 (soup : Bs4.soup) : M unit :=
  step5_with (Ok (biography soup)) (Ok (bio_by soup)).

Definition step5_1 (soup : Bs4.soup) : M unit :=
  step5_1_with (Ok (plot soup)).

Definition step6 (soup : Bs4.soup) : M unit :=
  step6_with (Ok (inscription soup)).

Definition step7 (soup : Bs4.soup) : M unit :=
  step7_with (Ok (family soup)).

(** The script from Step 3 on. *)
Definition script (soup : Bs4.soup) : M unit :=
  do data <- step3 soup;
  step4 data >>
  step5 soup >>
  step5_1 soup >>
  step6 soup >>
  step7 soup >>
  step10.

Definition run (soup : Bs4.soup) : outcome unit * state :=
  script soup initial.

End Pipeline.

(** ** The record of a run that has one *)

(** [main_fields] after Steps 5 to 7, from what Step 4 bound it to. *)
Definition assembled (soup : Bs4.soup) (mf : record) : record :=
  <["family_children" := PyStr (Str.join ", " (family_links soup "children"))]>
    (<["family_spouses" := PyStr (Str.join ", " (family_links soup "spouses"))]>
       (<["family_parents" :=
            PyStr (Str.join ", " (family_links soup "parents"))]>
          (<["inscription" := inscription soup]>
             (<["Plot" := plot soup]>
                (<["bio_by" := bio_by soup]>
                   (<["biography" := biography soup]> mf)))))).

(** The frame after [drop]: the record without the four columns. *)
Definition sheet (r : record) : record := foldr delete r columns_to_drop.

(** A hyperlink: an [a] element with an [href]. *)
Definition hyperlink (n : Bs4.node) : bool :=
  Bs4.is_tag "a" n && Bs4.has_attr "href" n.

(** The visible texts of the hyperlinks below [block], in document order. *)
Definition hyperlink_texts (block : Bs4.node) : list string :=
  map Bs4.text_of (List.filter hyperlink (Bs4.descendants (Bs4.contents block))).

(** ** Example pages *)

Module Examples.

Import Bs4.

Definition dq : string := String "034" "".

(** [var findagrave = {"fullName":"<span class=\"prefix\">Pvt</span> John
    Doe","firstName":"John","lastName":"Doe","birthYear":1900,
    "deathYear":1944}; var htmlSnippets = {};] *)
Definition john_doe_declaration : string :=
  "var findagrave = {" ++ dq ++ "fullName" ++ dq ++ ":" ++ dq
  ++ "<span class=\" ++ dq ++ "prefix\" ++ dq ++ ">Pvt</span> John Doe" ++ dq
  ++ "," ++ dq ++ "firstName" ++ dq ++ ":" ++ dq ++ "John" ++ dq
  ++ "," ++ dq ++ "lastName" ++ dq ++ ":" ++ dq ++ "Doe" ++ dq
  ++ "," ++ dq ++ "birthYear" ++ dq ++ ":1900"
  ++ "," ++ dq ++ "deathYear" ++ dq ++ ":1944}; var htmlSnippets = {};".

(** The object the declaration describes. *)
Definition john_doe_properties : gmap string pyval :=
  list_to_map
    [("fullName",
      PyStr ("<span class=" ++ dq ++ "prefix" ++ dq ++ ">Pvt</span> John Doe"));
     ("firstName", PyStr "John");
     ("lastName", PyStr "Doe");
     ("birthYear", PyInt 1900);
     ("deathYear", PyInt 1944)].

Definition john_doe_object : pyval := PyJsObject john_doe_properties.

Definition page_with_script (script_text : string) (body : list node)
  : soup :=
  [Tag "html" []
       [Tag "head" [] [Tag "script" [] [NavigableString script_text]];
        Tag "body" [] body]].

Definition john_doe_page : soup := page_with_script john_doe_declaration [].

(** The object has first and last name and no [fullName]. *)
Definition no_full_name_page : soup :=
  page_with_script
    ("var findagrave = {" ++ dq ++ "firstName" ++ dq ++ ":" ++ dq ++ "John"
     ++ dq ++ "," ++ dq ++ "lastName" ++ dq ++ ":" ++ dq ++ "Doe" ++ dq
     ++ "}; var htmlSnippets = {};")
    [].

Definition no_full_name_object : pyval :=
  PyJsObject
    (list_to_map [("firstName", PyStr "John"); ("lastName", PyStr "Doe")]).

(** The string of the literal is cut short. *)
Definition truncated_literal_page : soup :=
  page_with_script
    ("var findagrave = {" ++ dq ++ "fullName" ++ dq ++ ":" ++ dq
     ++ "John D}; var htmlSnippets = {};")
    [].

(** A full name whose prefix span sits between a [<] and [b>]. *)
Definition split_tag_name : string :=
  "<<span class=" ++ dq ++ "prefix" ++ dq ++ ">Pvt</span>b>John".

Definition prefixed_name : string :=
  "<span class=" ++ dq ++ "prefix" ++ dq ++ ">Pvt</span> John Doe".

(** A family section with two parents, no spouses block, and children of
    whom one anchor has no [href]. *)
Definition parents_block : node :=
  Tag "div" [("data-relationship", "parents")]
    [Tag "ul" []
       [Tag "li" [] [Tag "a" [("href", "/memorial/1")]
                       [NavigableString " Adam Doe "]];
        Tag "li" [] [Tag "a" [("href", "/memorial/2")]
                       [Tag "b" [] [NavigableString "Eve"];
                        NavigableString " Doe"]]]].

Definition children_block : node :=
  Tag "div" [("data-relationship", "children")]
    [Tag "a" [("name", "top")] [NavigableString "skip"];
     Tag "a" [("href", "/memorial/3")] [NavigableString "Abel Doe"]].

Definition family_members : node :=
  Tag "section" [("id", "family-members")] [parents_block; children_block].

Definition family_page : soup :=
  page_with_script john_doe_declaration [family_members].

(** A state in which Step 4 has bound an empty record. *)
Definition empty_record : state :=
  {| errors_txt := []; main_fields := Some ∅; xlsx := None |}.

End Examples.

(** ** The markup steps for any outcome of their lookups *)

(** What the lookups in the bodies of Steps 5 to 7 did: each returned its
    value or raised. *)
Record lookups := Lookups {
  bio_lookup : result pyval;
  by_lookup : result pyval;
  plot_lookup : result pyval;
  inscription_lookup : result pyval;
  family_lookup : result (list string * list string * list string)
}.

(** The lookups on a page: they all return. *)
Definition page_lookups (soup : Bs4.soup) : lookups :=
  {| bio_lookup := Ok (biography soup);
     by_lookup := Ok (bio_by soup);
     plot_lookup := Ok (plot soup);
     inscription_lookup := Ok (inscription soup);
     family_lookup := Ok (family soup) |}.

(** Steps 5 to 7. *)
Definition markup_steps (l : lookups) : M unit :=
  step5_with (bio_lookup l) (by_lookup l) >>
  step5_1_with (plot_lookup l) >>
  step6_with (inscription_lookup l) >>
  step7_with (family_lookup l).

(** The script from Step 3 on, for any outcome of the lookups. *)
Definition script_with (eval_js : string -> result pyval)
  (html_parser : string -> Bs4.soup) (soup : Bs4.soup) (l : lookups)
  : M unit :=
  do data <- step3 eval_js soup;
  step4 html_parser data >>
  step5_with (bio_lookup l) (by_lookup l) >>
  step5_1_with (plot_lookup l) >>
  step6_with (inscription_lookup l) >>
  step7_with (family_lookup l) >>
  step10.

(** The keys Steps 5 to 7 assign. *)
Definition markup_keys : list string :=
  ["biography"; "bio_by"; "Plot"; "inscription";
   "family_parents"; "family_spouses"; "family_children"].

(** The record after Steps 5 to 7, from the record before them. *)
Definition after_step5 (l : lookups) (mf : record) : record :=
  match bio_lookup l with
  | Ok v =>
      match by_lookup l with
      | Ok w => <["bio_by" := w]> (<["biography" := v]> mf)
      | Raise _ => <["biography" := v]> mf
      end
  | Raise _ => mf
  end.

Definition after_step5_1 (l : lookups) (mf : record) : record :=
  match plot_lookup l with
  | Ok v => <["Plot" := v]> mf
  | Raise _ => <["Plot" := PyStr ""]> mf
  end.

Definition after_step6 (l : lookups) (mf : record) : record :=
  match inscription_lookup l with
  | Ok v => <["inscription" := v]> mf
  | Raise _ => mf
  end.

Definition after_step7 (l : lookups) (mf : record) : record :=
  match family_lookup l with
  | Ok (parents, spouses, children) =>
      <["family_children" := PyStr (Str.join ", " children)]>
        (<["family_spouses" := PyStr (Str.join ", " spouses)]>
           (<["family_parents" := PyStr (Str.join ", " parents)]> mf))
  | Raise _ => mf
  end.

Definition after_markup (l : lookups) (mf : record) : record :=
  after_step7 l (after_step6 l (after_step5_1 l (after_step5 l mf))).

(** The exception a [try] block of Steps 5 to 7 ends with, when it does. *)
Definition step5_failure (l : lookups) : option exn :=
  match bio_lookup l with
  | Raise e => Some e
  | Ok _ => match by_lookup l with Raise e => Some e | Ok _ => None end
  end.

Definition failure {A} (r : result A) : option exn :=
  match r with Raise e => Some e | Ok _ => None end.

Definition data_line (what : string) (e : option exn) : list string :=
  match e with
  | Some e => [log_line ("[DATA] Failed to extract " ++ what ++ ": "
                         ++ exn_str e)]
  | None => []
  end.

(** The lines Steps 5 to 7 log when the record exists. *)
Definition markup_log (l : lookups) : list string :=
  data_line "biography info" (step5_failure l)
  ++ data_line "Plot" (failure (plot_lookup l))
  ++ data_line "inscription" (failure (inscription_lookup l))
  ++ data_line "family info" (failure (family_lookup l)).


(** A string value that [strip] leaves as it is. *)
Definition trimmed_text (v : pyval) : Prop :=
  exists s, v = PyStr s /\ Str.strip s = s.

(** The columns of the sheet. *)
Definition sheet_columns : list string :=
  "full_name" :: map fst field_table ++ ["biography"; "bio_by"; "Plot"].


(** Lookups of which some raise: the biography is found, its attribution
    and the plot are not, the inscription is found, the family is not. *)
Definition mixed_lookups : lookups :=
  {| bio_lookup := Ok (PyStr "Born in Ohio.");
     by_lookup := Raise (AttributeError "'NoneType' object is not callable");
     plot_lookup := Raise (LibraryError "RecursionError"
                                        "maximum recursion depth exceeded");
     inscription_lookup := Ok (PyStr "At rest");
     family_lookup := Raise (LibraryError "RecursionError"
                                          "maximum recursion depth exceeded") |}.

(** * Facts *)

Module StrFacts.
Import Str.

Lemma rstrip_cons c r :
  is_space c = false -> rstrip (String c r) = String c (rstrip r).
Proof. intros Hc. simpl. rewrite Hc. destruct (rstrip r); reflexivity. Qed.

Lemma rstrip_app_tag tag rest :
  all_chars (fun c => negb (is_space c)) tag = true ->
  rstrip (tag ++ rest) = tag ++ rstrip rest.
Proof.
  induction tag as [|c t IH]; intros H; [reflexivity|].
  simpl in H. apply andb_true_iff in H as [Hc Ht].
  apply negb_true_iff in Hc.
  change (String c t ++ rest) with (String c (t ++ rest)).
  rewrite rstrip_cons by assumption. rewrite IH by assumption. reflexivity.
Qed.

Lemma startswith_app p s : startswith p (p ++ s) = true.
Proof.
  unfold startswith. induction p as [|c p IH]; simpl.
  - destruct s; reflexivity.
  - rewrite IH. destruct (ascii_dec c c); congruence.
Qed.

Lemma lstrip_head s c r : lstrip s = String c r -> is_space c = false.
Proof.
  induction s as [|d s IH]; simpl; [discriminate|].
  destruct (is_space d) eqn:Hd; [exact IH|].
  intros [= <- _]. exact Hd.
Qed.

Lemma rstrip_idem s : rstrip (rstrip s) = rstrip s.
Proof.
  induction s as [|c s IH]; [reflexivity|].
  simpl. destruct (rstrip s) as [|d r'] eqn:Hr.
  - destruct (is_space c) eqn:Hc; [reflexivity|]. simpl. rewrite Hc. reflexivity.
  - simpl in IH |- *. destruct (rstrip r') eqn:Hr'.
    + destruct (is_space d); [discriminate|]. congruence.
    + congruence.
Qed.

Lemma rstrip_app a b : rstrip b <> "" -> rstrip (a ++ b) = a ++ rstrip b.
Proof.
  intros Hb. induction a as [|c a IH]; [reflexivity|].
  change (String c a ++ b) with (String c (a ++ b)).
  change (String c a ++ rstrip b) with (String c (a ++ rstrip b)).
  simpl. rewrite IH. destruct (a ++ rstrip b) eqn:E; [|reflexivity].
  destruct a; simpl in E; [contradiction|discriminate].
Qed.

Lemma tidy_strip s : strip s <> "" -> tidy (strip s).
Proof.
  intros Hne. unfold strip in *. split; [assumption|]. split.
  - destruct (rstrip (lstrip s)) as [|c r] eqn:E; [reflexivity|].
    destruct (lstrip s) as [|d l] eqn:El; [discriminate|].
    apply lstrip_head in El. rewrite rstrip_cons in E by assumption.
    injection E as <- _. simpl. rewrite El. reflexivity.
  - apply rstrip_idem.
Qed.

Lemma tidy_app a b : tidy a -> tidy b -> tidy (a ++ b).
Proof.
  intros (Ha & Hla & Hra) (Hb & Hlb & Hrb). split; [|split].
  - destruct a; [contradiction|discriminate].
  - destruct a as [|c a]; [contradiction|].
    simpl in Hla |- *. destruct (is_space c) eqn:Hc; [|reflexivity].
    exfalso. apply lstrip_head in Hla. congruence.
  - rewrite rstrip_app by congruence. congruence.
Qed.

Lemma tidy_stripped s : tidy s -> strip s = s.
Proof. intros (_ & Hl & Hr). unfold strip. congruence. Qed.

Lemma append_empty s : s ++ "" = s.
Proof.
  induction s as [|c s IH]; [reflexivity|].
  change (String c (s ++ "") = String c s). f_equal. exact IH.
Qed.

Lemma append_assoc a b c : (a ++ b) ++ c = a ++ (b ++ c).
Proof.
  induction a as [|d a IH]; [reflexivity|].
  change (String d ((a ++ b) ++ c) = String d (a ++ (b ++ c))).
  f_equal. exact IH.
Qed.

Lemma join_empty_cons x l : join "" (x :: l) = x ++ join "" l.
Proof.
  unfold join. destruct l as [|y l]; simpl.
  - symmetry. apply append_empty.
  - reflexivity.
Qed.

Lemma tidy_join l :
  Forall tidy l -> l <> [] -> tidy (join "" l).
Proof.
  induction 1 as [|x l Hx Hl IH]; [congruence|]. intros _.
  rewrite join_empty_cons. destruct l as [|y l].
  - unfold join. simpl. rewrite append_empty. assumption.
  - apply tidy_app; [assumption|]. apply IH. discriminate.
Qed.

Lemma strip_join_tidy l : Forall tidy l -> strip (join "" l) = join "" l.
Proof.
  intros H. destruct l as [|x l]; [reflexivity|].
  apply tidy_stripped, tidy_join; [assumption|discriminate].
Qed.


End StrFacts.

(** ** Trees *)

Module Bs4Facts.
Import Bs4 StrFacts.

Lemma find_Some p cs n :
  find p cs = Some n -> In n (descendants cs) /\ p n = true.
Proof.
  unfold find, find_all. induction (descendants cs) as [|m l IH]; [discriminate|].
  cbn [List.filter]. destruct (p m) eqn:Hm.
  - intros [= ->]. split; [left; reflexivity|assumption].
  - intros H. destruct (IH H). split; [right|]; assumption.
Qed.

Lemma find_None p cs :
  find p cs = None <-> Forall (fun n => p n = false) (descendants cs).
Proof.
  unfold find, find_all. induction (descendants cs) as [|m l IH].
  - split; [constructor|reflexivity].
  - cbn [List.filter]. destruct (p m) eqn:Hm.
    + split; [discriminate|]. intros H. inversion H; congruence.
    + rewrite IH. split; [constructor; assumption|].
      intros H. inversion H; assumption.
Qed.

Lemma find_None_weaken p q cs :
  (forall n, q n = true -> p n = true) ->
  find p cs = None -> find q cs = None.
Proof.
  intros Hqp. rewrite !find_None. intros H.
  eapply Forall_impl; [exact H|]. cbv beta. intros n Hp. destruct (q n) eqn:Hq; [|reflexivity].
  apply Hqp in Hq. congruence.
Qed.

Lemma descendants_cons n cs :
  descendants (n :: cs) = n :: descendants (contents n) ++ descendants cs.
Proof. destruct n; reflexivity. Qed.

Lemma stripped_strings_tidy cs : Forall Str.tidy (stripped_strings cs).
Proof.
  unfold stripped_strings. apply Forall_flat_map, Forall_forall.
  intros n _. destruct n as [s| |]; try constructor.
  destruct (Str.is_empty (Str.strip s)) eqn:E; constructor; [|constructor].
  apply tidy_strip. intros H. rewrite H in E. discriminate.
Qed.

Lemma get_text_strip_stripped cs :
  Str.strip (get_text_strip cs) = get_text_strip cs.
Proof. apply strip_join_tidy, stripped_strings_tidy. Qed.

Lemma lstrip_ascii_spaces t :
  Str.all_chars Html.ascii_space t = true -> Str.lstrip t = "".
Proof.
  induction t as [|c t IH]; [reflexivity|]. simpl.
  intros [Hc Ht]%andb_true_iff.
  assert (Str.is_space c = true) as ->.
  { unfold Html.ascii_space in Hc.
    repeat (apply orb_true_iff in Hc as [Hc|Hc]);
      apply Ascii.eqb_eq in Hc; subst c; reflexivity. }
  auto.
Qed.

Lemma clean_text_document t :
  Str.join "" (stripped_strings (decompose_all span_prefix (Html.text_document t)))
  = Str.strip t.
Proof.
  unfold Html.text_document. destruct t as [|c t]; [reflexivity|].
  cbn [Str.is_empty decompose_all flat_map span_prefix decompose app].
  unfold stripped_strings, descendants.
  cbn [flat_map below app].
  unfold Html.end_data. cbn [Html.is_open existsb negb andb].
  rewrite !andb_true_r.
  destruct (Str.all_chars Html.ascii_space (String c t)) eqn:Hall.
  - unfold Str.strip at 3. rewrite lstrip_ascii_spaces by assumption.
    destruct (Str.contains "010" (String c t)); reflexivity.
  - destruct (Str.is_empty (Str.strip (String c t))) eqn:E.
    + destruct (Str.strip (String c t)); [reflexivity|discriminate].
    + cbn. unfold Str.join. cbn. reflexivity.
Qed.
End Bs4Facts.

(** ** The reference parser on text without markup *)

Module HtmlFacts.
Import Bs4 Html.

Lemma snoc_append acc c r : snoc acc c ++ r = acc ++ String c r.
Proof.
  unfold snoc. induction acc as [|d acc IH]; [reflexivity|].
  change (String d ((acc ++ String c "") ++ r) = String d (acc ++ String c r)).
  f_equal. exact IH.
Qed.

Lemma lex_text acc t :
  Str.contains "<" t = false -> lex LData acc t = data_token (acc ++ t).
Proof.
  revert acc. induction t as [|c t IH]; intros acc H.
  - simpl. rewrite StrFacts.append_empty. reflexivity.
  - cbn [Str.contains] in H.
    destruct (Ascii.eqb "<" c) eqn:Hc; [discriminate|].
    rewrite Ascii.eqb_sym in Hc.
    cbn [lex]. rewrite Hc. rewrite IH by assumption.
    rewrite snoc_append. reflexivity.
Qed.

Lemma parse_text t : Str.markup_free t = true -> parse t = text_document t.
Proof.
  unfold Str.markup_free. intros [H _]%andb_true_iff.
  apply negb_true_iff in H.
  unfold parse, tokenize. rewrite lex_text by assumption.
  unfold text_document, data_token. 
  change ("" ++ t) with t.
  destruct t; reflexivity.
Qed.

End HtmlFacts.


(** ** Runs *)

Section Claims.

Variable eval_js : string -> result pyval.
Variable html_parser : string -> Bs4.soup.

Ltac unfold_steps :=
  unfold run, script, step3, step4, step5, step5_1, step6, step7, step10,
    step5_with, step5_1_with, step6_with, step7_with, update_family, family,
    setitem, try_except, bind, call, log_error, system_exit,
    load_main_fields, assign_main_fields, write_sheet, initial.

(** A run ends in one of three ways, by what Steps 3 and 4 do.  When both
    succeed the script runs to its end and writes the sheet. *)
Lemma run_done soup data mf :
  findagrave_object eval_js soup = Ok data ->
  main_fields_display html_parser data = Ok mf ->
  run eval_js html_parser soup =
    (Returns tt, {| errors_txt := [];
                    main_fields := Some (assembled soup mf);
                    xlsx := Some (sheet (assembled soup mf)) |}).
Proof.
  intros H3 H4. unfold_steps. rewrite H3. simpl. rewrite H4. reflexivity.
Qed.

(** When the display of Step 4 raises, [main_fields] stays unbound: Step 5
    fails on the name, and so does Step 5.1, whose handler uses the name
    again and raises out of the script. *)
Lemma run_no_record soup data e :
  findagrave_object eval_js soup = Ok data ->
  main_fields_display html_parser data = Raise e ->
  run eval_js html_parser soup =
    (Raises name_error_main_fields,
     {| errors_txt :=
          [log_line ("[DATA] Failed to extract main_fields: " ++ exn_str e);
           log_line ("[DATA] Failed to extract biography info: "
                     ++ exn_str name_error_main_fields);
           log_line ("[DATA] Failed to extract Plot: "
                     ++ exn_str name_error_main_fields)];
        main_fields := None;
        xlsx := None |}).
Proof.
  intros H3 H4. unfold_steps. rewrite H3. simpl. rewrite H4. reflexivity.
Qed.

(** When the body of Step 3 raises, the run ends there. *)
Lemma run_abort soup e :
  findagrave_object eval_js soup = Raise e ->
  run eval_js html_parser soup =
    (Exits "JS parsing failed. Check errors.txt.",
     {| errors_txt := [log_line ("[CRITICAL] JS parsing failed: " ++ exn_str e)];
        main_fields := None;
        xlsx := None |}).
Proof.
  intros H3. unfold_steps. rewrite H3. reflexivity.
Qed.

(** A sheet is written only by a run that has a record, and it is the
    record without the dropped columns. *)
Lemma run_sheet soup table :
  xlsx (snd (run eval_js html_parser soup)) = Some table ->
  exists mf,
    main_fields (snd (run eval_js html_parser soup)) = Some (assembled soup mf)
    /\ table = sheet (assembled soup mf).
Proof.
  destruct (findagrave_object eval_js soup) as [data|e] eqn:H3.
  - destruct (main_fields_display html_parser data) as [mf|e] eqn:H4.
    + rewrite (run_done _ _ _ H3 H4). cbn [snd xlsx main_fields].
      intros [= <-]. exists mf. split; reflexivity.
    + rewrite (run_no_record _ _ _ H3 H4). discriminate.
  - rewrite (run_abort _ _ H3). discriminate.
Qed.

(** The three failures are exactly the ways the body of Step 3 raises. *)
Lemma failure_raises soup e :
  structured_data_failure eval_js soup e <->
  findagrave_object eval_js soup = Raise e.
Proof.
  unfold findagrave_object. split.
  - intros [H|tag raw H1 H2 H3|tag raw g e' H1 H2 H3 H4];
      rewrite ?H, ?H1, ?H2, ?H3; auto.
  - destruct (Bs4.find findagrave_script soup) as [tag|] eqn:H1.
    + destruct (Bs4.tag_string tag) as [raw|] eqn:H2.
      * destruct (Re.search_object raw) as [g|] eqn:H3.
        -- intros H4. eapply literal_not_deserialized; eauto.
        -- intros [= <-]. eapply literal_not_isolated; eauto.
      * exfalso. apply Bs4Facts.find_Some in H1.
        destruct H1 as [_ H1]. unfold findagrave_script in H1.
        rewrite H2 in H1. rewrite andb_false_r in H1. discriminate.
    + intros [= <-]. apply missing_block. assumption.
Qed.

(** A logged message keeps the tag it starts with. *)
Lemma log_line_tagged tag rest :
  tag <> "" ->
  Str.all_chars (fun c => negb (Str.is_space c)) tag = true ->
  Str.startswith tag (log_line (tag ++ rest)) = true.
Proof.
  intros Hne Htag. unfold log_line, Str.strip.
  assert (Str.lstrip (tag ++ rest) = tag ++ rest) as ->.
  { destruct tag as [|c tag]; [contradiction|].
    cbn [Str.all_chars] in Htag. apply andb_true_iff in Htag as [Hc _].
    apply negb_true_iff in Hc.
    change (String c tag ++ rest) with (String c (tag ++ rest)).
    cbn [Str.lstrip]. rewrite Hc. reflexivity. }
  rewrite StrFacts.rstrip_app_tag by assumption.
  rewrite StrFacts.append_assoc. apply StrFacts.startswith_app.
Qed.

Lemma absent_id_biography soup :
  Bs4.find (Bs4.attr_is "id" "partBio") soup = None ->
  biography soup = PyStr "".
Proof.
  intros H. unfold biography.
  rewrite (Bs4Facts.find_None_weaken
             _ _ _ (fun n Hn => proj2 (andb_prop _ _ Hn)) H).
  reflexivity.
Qed.

Lemma absent_id_plot soup :
  Bs4.find (Bs4.attr_is "id" "plotValueLabel") soup = None ->
  plot soup = PyStr "".
Proof.
  intros H. unfold plot.
  rewrite (Bs4Facts.find_None_weaken
             _ _ _ (fun n Hn => proj2 (andb_prop _ _ Hn)) H).
  reflexivity.
Qed.

(** What Step 4 binds [main_fields] to when [fullName] is a string: every
    key of the table is there, and a property the object lacks reads as
    [None]. *)
Lemma read_fields_object props table :
  read_fields (PyJsObject props) table
  = Ok (map (fun '(out, key) => (out, default PyNone (props !! key))) table).
Proof.
  induction table as [|[out key] table IH]; [reflexivity|].
  cbn [read_fields map getattr]. rewrite IH. reflexivity.
Qed.

Lemma display_of_object props s :
  props !! "fullName" = Some (PyStr s) ->
  exists mf,
    main_fields_display html_parser (PyJsObject props) = Ok mf
    /\ mf !! "full_name" = Some (PyStr (cleaned html_parser s))
    /\ forall out key,
        In (out, key) field_table ->
        mf !! out = Some (default PyNone (props !! key)).
Proof.
  intros Hname. eexists. split; [|split].
  - unfold main_fields_display. cbn [getattr]. rewrite Hname.
    cbn -[read_fields list_to_map]. rewrite read_fields_object. reflexivity.
  - cbn [list_to_map foldr]. simplify_map_eq. reflexivity.
  - intros out key Hin.
    apply elem_of_list_to_map_1.
    + vm_compute.
      match goal with |- ?G => apply (@bool_decide_unpack G _) end.
      vm_compute. exact I.
    + right. apply list_elem_of_In.
      apply (in_map (fun '(out, key) => (out, default PyNone (props !! key)))
                    _ _ Hin).
Qed.

(** C1: when the page has no script element that declares [findagrave], or
    the object literal cannot be isolated or deserialized, the run ends with
    [SystemExit] and status 1, having appended one line tagged [[CRITICAL]]
    to the error log and written no sheet; the line of the missing block and
    the line of the literal that cannot be isolated differ. *)
Theorem C1_structured_data_failure_aborts soup e :
  structured_data_failure eval_js soup e ->
  run eval_js html_parser soup =
    (Exits "JS parsing failed. Check errors.txt.",
     {| errors_txt := [log_line ("[CRITICAL] JS parsing failed: " ++ exn_str e)];
        main_fields := None;
        xlsx := None |})
  /\ Str.startswith "[CRITICAL]"
       (log_line ("[CRITICAL] JS parsing failed: " ++ exn_str e)) = true
  /\ exit_status (fst (run eval_js html_parser soup)) <> 0%Z
  /\ log_line ("[CRITICAL] JS parsing failed: "
               ++ exn_str (ValueError "Missing 'findagrave' JS object"))
     <> log_line ("[CRITICAL] JS parsing failed: "
                  ++ exn_str (ValueError
                                "Failed to extract 'findagrave' object")).
Proof.
  intros H. apply failure_raises in H. rewrite (run_abort _ _ H).
  split; [reflexivity|]. split; [|split].
  - apply (log_line_tagged "[CRITICAL]" (" JS parsing failed: " ++ exn_str e));
      [discriminate|reflexivity].
  - discriminate.
  - vm_compute. discriminate.
Qed.

(** C2: the sheet of every run that writes one has none of the columns
    [inscription], [family_parents], [family_spouses], [family_children],
    though the record holds the values extracted for them; [biography] and
    [bio_by] are in the sheet with the values extracted. *)
Theorem C2_sheet_columns soup table :
  xlsx (snd (run eval_js html_parser soup)) = Some table ->
  (table !! "inscription" = None /\ table !! "family_parents" = None
   /\ table !! "family_spouses" = None /\ table !! "family_children" = None)
  /\ (exists mf, main_fields (snd (run eval_js html_parser soup)) = Some mf
        /\ mf !! "inscription" = Some (inscription soup)
        /\ mf !! "family_parents"
           = Some (PyStr (Str.join ", " (family_links soup "parents")))
        /\ mf !! "family_spouses"
           = Some (PyStr (Str.join ", " (family_links soup "spouses")))
        /\ mf !! "family_children"
           = Some (PyStr (Str.join ", " (family_links soup "children"))))
  /\ table !! "biography" = Some (biography soup)
  /\ table !! "bio_by" = Some (bio_by soup).
Proof.
  intros Htable. destruct (run_sheet _ _ Htable) as (mf & Hmf & ->).
  rewrite Hmf. unfold sheet, assembled, columns_to_drop. cbn [foldr].
  split; [|split].
  - repeat split; simplify_map_eq; reflexivity.
  - eexists. split; [reflexivity|]. repeat split; simplify_map_eq; reflexivity.
  - split; simplify_map_eq; reflexivity.
Qed.

(** C5 (the code departs from it): for every object without [fullName],
    Step 4 binds no record at all: [data.fullName] is [None], which is not
    markup, and the one line logged is all that is left of the step. *)
Theorem C5_absent_full_name_fails_record (props : gmap string pyval) st :
  step4 html_parser (PyJsObject (delete "fullName" props)) st
  = (Returns tt,
     {| errors_txt :=
          errors_txt st
          ++ [log_line ("[DATA] Failed to extract main_fields: "
                        ++ "object of type 'NoneType' has no len()")];
        main_fields := main_fields st;
        xlsx := xlsx st |}).
Proof.
  unfold_steps. unfold main_fields_display. cbn [getattr].
  rewrite lookup_delete_eq. reflexivity.
Qed.

(** C6: with the family section there and a record bound, Step 7 sets each
    of the three family keys to [", ".join] of the visible texts of the
    hyperlinks below the first block of that relation, in document order, and
    to the empty string when the section has no block of the relation. *)
Theorem C6_family_strings soup section st mf :
  family_section soup = Some section ->
  main_fields st = Some mf ->
  exists mf',
    step7 soup st = (Returns tt, {| errors_txt := errors_txt st;
                                     main_fields := Some mf';
                                     xlsx := xlsx st |})
    /\ forall relation,
        In relation ["parents"; "spouses"; "children"] ->
        (forall block,
            rel_block section relation = Some block ->
            mf' !! ("family_" ++ relation)
            = Some (PyStr (Str.join ", " (hyperlink_texts block))))
        /\ (rel_block section relation = None ->
            mf' !! ("family_" ++ relation) = Some (PyStr "")).
Proof.
  intros Hsec Hmf. eexists. split.
  - unfold_steps. rewrite Hmf. reflexivity.
  - intros relation Hin.
    assert (forall r, family_links soup r
                      = match rel_block section r with
                        | Some block => hyperlink_texts block
                        | None => []
                        end) as Hlinks.
    { intros r. unfold family_links. rewrite Hsec. reflexivity. }
    rewrite !Hlinks.
    cbn [In] in Hin.
    destruct Hin as [<-|[<-|[<-|[]]]];
      change ("family_" ++ "parents") with "family_parents";
      change ("family_" ++ "spouses") with "family_spouses";
      change ("family_" ++ "children") with "family_children";
      (split; [intros block Hb|intros Hb]); rewrite Hb;
      simplify_map_eq; reflexivity.
Qed.

(** C7, as amended: for a parser that reads text without markup as that
    one string, cleaning a full name whose cleaned form holds neither [<] nor
    [&] a second time gives the cleaned form again. *)
Theorem C7_cleaning_idempotent_on_text :
  (forall t, Str.markup_free t = true ->
             html_parser t = Html.text_document t) ->
  forall s,
    Str.markup_free (cleaned html_parser s) = true ->
    cleaned html_parser (cleaned html_parser s) = cleaned html_parser s.
Proof.
  intros Hparser s Hfree.
  unfold cleaned at 1. rewrite Hparser by assumption.
  unfold clean_full_name, Bs4.get_text_strip.
  rewrite Bs4Facts.clean_text_document.
  apply Bs4Facts.get_text_strip_stripped.
Qed.

(** C8 (the code departs from it): on a page with no element whose id is
    [partBio], Step 5 itself lets no exception out, and with a record bound
    it sets [biography] to the empty string, Steps 5 to 7 all return, and
    the sheet has the empty string there.  Without a record there is no such
    field and an exception does get out: Step 5 fails on the unbound name,
    which its handler logs, and the handler of Step 5.1 raises [NameError]
    out of the steps that read the markup.  That is the state every failed
    Step 4 leaves, and the run then ends with status 1 and no sheet. *)
Theorem C8_absent_biography_needs_record soup :
  Bs4.find (Bs4.attr_is "id" "partBio") soup = None ->
  (forall st, fst (step5 soup st) = Returns tt)
  /\ (forall st mf,
        main_fields st = Some mf ->
        (exists mf', main_fields (snd (step5 soup st)) = Some mf'
                     /\ mf' !! "biography" = Some (PyStr ""))
        /\ fst ((step5 soup >> step5_1 soup >> step6 soup >> step7 soup) st)
           = Returns tt)
  /\ (forall table,
        xlsx (snd (run eval_js html_parser soup)) = Some table ->
        table !! "biography" = Some (PyStr ""))
  /\ (forall st,
        main_fields st = None ->
        main_fields (snd (step5 soup st)) = None
        /\ (step5 soup >> step5_1 soup >> step6 soup >> step7 soup) st
           = (Raises name_error_main_fields,
              {| errors_txt :=
                   errors_txt st
                   ++ [log_line ("[DATA] Failed to extract biography info: "
                                 ++ exn_str name_error_main_fields);
                       log_line ("[DATA] Failed to extract Plot: "
                                 ++ exn_str name_error_main_fields)];
                 main_fields := None;
                 xlsx := xlsx st |}))
  /\ (forall data e,
        findagrave_object eval_js soup = Ok data ->
        main_fields_display html_parser data = Raise e ->
        main_fields (snd (step4 html_parser data initial)) = None
        /\ fst (run eval_js html_parser soup) = Raises name_error_main_fields
        /\ exit_status (fst (run eval_js html_parser soup)) = 1%Z
        /\ main_fields (snd (run eval_js html_parser soup)) = None
        /\ xlsx (snd (run eval_js html_parser soup)) = None).
Proof.
  intros Hbio. apply absent_id_biography in Hbio.
  split; [|split; [|split; [|split]]].
  - intros st. unfold_steps. destruct (main_fields st); reflexivity.
  - intros st mf Hmf. split.
    + unfold_steps. rewrite Hmf. cbn.
      eexists. split; [reflexivity|].
      rewrite Hbio. simplify_map_eq. reflexivity.
    + unfold_steps. rewrite Hmf. reflexivity.
  - intros table Htable. destruct (run_sheet _ _ Htable) as (mf & _ & ->).
    unfold sheet, assembled, columns_to_drop. cbn [foldr].
    rewrite Hbio. simplify_map_eq. reflexivity.
  - intros st Hmf. split.
    + unfold_steps. rewrite Hmf. cbn. assumption.
    + unfold_steps. rewrite Hmf. cbn. rewrite Hmf. cbn.
      rewrite <- app_assoc. reflexivity.
  - intros data e H3 H4. split.
    + unfold_steps. rewrite H4. reflexivity.
    + rewrite (run_no_record _ _ _ H3 H4). repeat split; reflexivity.
Qed.

(** C9: when the record exists, Step 5.1 ends with the key [Plot] in it
    whatever the lookup did: the value found, or the empty string set by the
    handler when the lookup raised, which is also logged.  The handlers of
    the biography and inscription steps leave the record as it was.  The
    sheet of a run that writes one has the column [Plot]. *)
Theorem C9_plot_always_set (plot_value : result pyval) st mf :
  main_fields st = Some mf ->
  (step5_1_with plot_value st
   = (Returns tt,
      {| errors_txt :=
           errors_txt st
           ++ match plot_value with
              | Ok _ => []
              | Raise e =>
                  [log_line ("[DATA] Failed to extract Plot: " ++ exn_str e)]
              end;
         main_fields :=
           Some (<["Plot" := match plot_value with
                             | Ok v => v
                             | Raise _ => PyStr ""
                             end]> mf);
         xlsx := xlsx st |}))
  /\ (forall e by_,
        main_fields (snd (step5_with (Raise e) by_ st)) = Some mf)
  /\ (forall e, main_fields (snd (step6_with (Raise e) st)) = Some mf)
  /\ (forall soup table,
        xlsx (snd (run eval_js html_parser soup)) = Some table ->
        table !! "Plot" = Some (plot soup)).
Proof.
  intros Hmf. split; [|split; [|split]].
  - unfold_steps. destruct plot_value as [v|e]; cbn; rewrite Hmf; cbn.
    + rewrite app_nil_r. destruct st; reflexivity.
    + reflexivity.
  - intros e by_. unfold_steps. cbn. assumption.
  - intros e. unfold_steps. cbn. assumption.
  - intros soup table Htable.
    destruct (run_sheet _ _ Htable) as (mf0 & _ & ->).
    unfold sheet, assembled, columns_to_drop. cbn [foldr].
    simplify_map_eq. reflexivity.
Qed.

(** C10: dropping the four columns with [errors='ignore'] returns, for
    every record: the frame has none of the four and keeps every other column.
    So whatever the inscription and family lookups did, raise or return, a
    record that exists is written. *)
Theorem C10_drop_never_raises (mf : gmap string pyval) :
  Pandas.drop columns_to_drop Pandas.ErrorsIgnore mf = Ok (sheet mf)
  /\ (forall k, In k columns_to_drop -> sheet mf !! k = None)
  /\ (forall k, ~ In k columns_to_drop -> sheet mf !! k = mf !! k)
  /\ (forall (inscription_value : result pyval)
             (links : result (list string * list string * list string)) st,
        main_fields st = Some mf ->
        exists st' mf',
          (step6_with inscription_value >> step7_with links >> step10) st
          = (Returns tt, st')
          /\ main_fields st' = Some mf'
          /\ xlsx st' = Some (sheet mf')).
Proof.
  split; [reflexivity|]. split; [|split].
  - intros k Hk. unfold sheet, columns_to_drop in *. cbn [foldr In] in *.
    destruct Hk as [<-|[<-|[<-|[<-|[]]]]]; simplify_map_eq; reflexivity.
  - intros k Hk. unfold sheet, columns_to_drop in *. cbn [foldr In] in *.
    rewrite !lookup_delete_ne; [reflexivity|..]; intros <-; tauto.
  - intros r6 r7 st Hmf. unfold_steps.
    destruct r6 as [v|e], r7 as [[[p s] c]|e']; cbn; rewrite Hmf; cbn;
      eexists _, _; (split; [reflexivity|]); cbn; split; reflexivity.
Qed.

(** With [errors='raise'] a column that was never computed is a
    [KeyError]. *)
Lemma drop_raise_missing (mf : gmap string pyval) :
  mf !! "inscription" = None ->
  exists msg, Pandas.drop columns_to_drop Pandas.ErrorsRaise mf
              = Raise (KeyError msg).
Proof.
  intros H. unfold Pandas.drop, columns_to_drop. cbn [List.filter].
  rewrite H. eexists. reflexivity.
Qed.

End Claims.

(** ** The reference libraries on the example pages *)

Example tokenize_prefixed_name :
  Html.tokenize Examples.prefixed_name
  = [Html.TStart "span" [("class", "prefix")] false; Html.TData "Pvt";
     Html.TEnd "span"; Html.TData " John Doe"].
Proof. reflexivity. Qed.

Example parse_split_tag_name :
  Html.parse Examples.split_tag_name
  = [Bs4.NavigableString "<";
     Bs4.Tag "span" [("class", "prefix")] [Bs4.NavigableString "Pvt"];
     Bs4.NavigableString "b>John"].
Proof. reflexivity. Qed.

Example cleaned_split_tag_name :
  cleaned Html.parse Examples.split_tag_name = "<b>John"
  /\ cleaned Html.parse "<b>John" = "John".
Proof. split; reflexivity. Qed.

Example search_object_example :
  Re.search_object "x = 1; var  findagrave={a: 1}; y = {}; var htmlSnippets"
  = Some "{a: 1}; y = {}".
Proof. reflexivity. Qed.

Example eval_john_doe :
  findagrave_object Js.eval_js Examples.john_doe_page
  = Ok Examples.john_doe_object.
Proof. vm_compute. reflexivity. Qed.

Lemma john_doe_display :
  exists mf,
    main_fields_display Html.parse Examples.john_doe_object = Ok mf
    /\ mf !! "full_name" = Some (PyStr "John Doe")
    /\ mf !! "first_name" = Some (PyStr "John")
    /\ mf !! "birth_year" = Some (PyInt 1900).
Proof.
  destruct (display_of_object
              Html.parse Examples.john_doe_properties
              ("<span class=" ++ Examples.dq ++ "prefix" ++ Examples.dq
               ++ ">Pvt</span> John Doe") eq_refl)
    as (mf & Hdisplay & Hfull & Hrest).
  exists mf. split; [exact Hdisplay|]. split; [|split].
  - rewrite Hfull. reflexivity.
  - rewrite (Hrest "first_name" "firstName"); [reflexivity|].
    cbn. auto.
  - rewrite (Hrest "birth_year" "birthYear"); [reflexivity|].
    cbn. auto.
Qed.

(** The run on a page whose script is the declaration of John Doe. *)
Lemma john_doe_run soup script_tag :
  Bs4.find findagrave_script soup = Some script_tag ->
  Bs4.tag_string script_tag = Some Examples.john_doe_declaration ->
  exists mf,
    run Js.eval_js Html.parse soup
    = (Returns tt, {| errors_txt := [];
                      main_fields := Some (assembled soup mf);
                      xlsx := Some (sheet (assembled soup mf)) |})
    /\ mf !! "full_name" = Some (PyStr "John Doe")
    /\ mf !! "first_name" = Some (PyStr "John")
    /\ mf !! "birth_year" = Some (PyInt 1900).
Proof.
  intros Hscript Hstring.
  assert (findagrave_object Js.eval_js soup = Ok Examples.john_doe_object)
    as H3.
  { unfold findagrave_object. rewrite Hscript, Hstring.
    vm_compute. reflexivity. }
  destruct john_doe_display as (mf & H4 & Hfields).
  exists mf. split; [apply (run_done _ _ _ _ _ H3 H4)|exact Hfields].
Qed.

(** C3: a page whose [findagrave] script holds the declaration of John Doe
    and that has no element with the biography or the plot id is written as a
    sheet with [full_name] John Doe, [first_name] John, [birth_year] 1900,
    empty [biography] and [Plot], and no inscription or family column;
    nothing is logged. *)
Theorem C3_john_doe_record soup script_tag :
  Bs4.find findagrave_script soup = Some script_tag ->
  Bs4.tag_string script_tag = Some Examples.john_doe_declaration ->
  Bs4.find (Bs4.attr_is "id" "partBio") soup = None ->
  Bs4.find (Bs4.attr_is "id" "plotValueLabel") soup = None ->
  exists st table,
    run Js.eval_js Html.parse soup = (Returns tt, st)
    /\ errors_txt st = []
    /\ xlsx st = Some table
    /\ table !! "full_name" = Some (PyStr "John Doe")
    /\ table !! "first_name" = Some (PyStr "John")
    /\ table !! "birth_year" = Some (PyInt 1900)
    /\ table !! "biography" = Some (PyStr "")
    /\ table !! "Plot" = Some (PyStr "")
    /\ table !! "inscription" = None
    /\ table !! "family_parents" = None
    /\ table !! "family_spouses" = None
    /\ table !! "family_children" = None.
Proof.
  intros Hscript Hstring Hbio Hplot.
  destruct (john_doe_run soup script_tag Hscript Hstring)
    as (mf & Hrun & Hfull & Hfirst & Hbirth).
  eexists _, _. split; [exact Hrun|].
  cbn [errors_txt xlsx]. split; [reflexivity|]. split; [reflexivity|].
  unfold sheet, assembled, columns_to_drop. cbn [foldr].
  rewrite (absent_id_biography _ Hbio), (absent_id_plot _ Hplot).
  repeat split; simplify_map_eq; reflexivity.
Qed.

Lemma C3_john_doe_page :
  exists st table,
    run Js.eval_js Html.parse Examples.john_doe_page = (Returns tt, st)
    /\ errors_txt st = []
    /\ xlsx st = Some table
    /\ table !! "full_name" = Some (PyStr "John Doe")
    /\ table !! "first_name" = Some (PyStr "John")
    /\ table !! "birth_year" = Some (PyInt 1900)
    /\ table !! "biography" = Some (PyStr "")
    /\ table !! "Plot" = Some (PyStr "")
    /\ table !! "inscription" = None
    /\ table !! "family_parents" = None
    /\ table !! "family_spouses" = None
    /\ table !! "family_children" = None.
Proof.
  apply (C3_john_doe_record
           Examples.john_doe_page
           (Bs4.Tag "script" []
                    [Bs4.NavigableString Examples.john_doe_declaration]));
    reflexivity.
Defined.

(** C4 (the code departs from it): on the page whose object has no
    [fullName], Step 4 fails, is logged, and leaves no record: the first and
    last name are lost with it, Steps 5 and 5.1 fail on the unbound name, and
    the handler of Step 5.1 raises [NameError] out of the script, which ends
    with status 1 and no sheet. *)
Theorem C4_failed_normalization_ends_run :
  run Js.eval_js Html.parse Examples.no_full_name_page =
    (Raises name_error_main_fields,
     {| errors_txt :=
          [log_line ("[DATA] Failed to extract main_fields: "
                     ++ "object of type 'NoneType' has no len()");
           log_line ("[DATA] Failed to extract biography info: "
                     ++ "name 'main_fields' is not defined");
           log_line ("[DATA] Failed to extract Plot: "
                     ++ "name 'main_fields' is not defined")];
        main_fields := None;
        xlsx := None |})
  /\ exit_status (fst (run Js.eval_js Html.parse Examples.no_full_name_page))
     = 1%Z.
Proof. split; vm_compute; reflexivity. Qed.

(** C7, as stated, fails: the cleaned form of [split_tag_name] is
    [<b>John], and cleaning that gives [John]. *)
Lemma C7_cleaning_not_idempotent :
  cleaned Html.parse Examples.split_tag_name = "<b>John"
  /\ cleaned Html.parse (cleaned Html.parse Examples.split_tag_name) = "John"
  /\ cleaned Html.parse (cleaned Html.parse Examples.split_tag_name)
     <> cleaned Html.parse Examples.split_tag_name.
Proof.
  split; [reflexivity|]. split; [reflexivity|].
  vm_compute. discriminate.
Qed.

(** ** The statements at the example pages *)

Lemma C1_witness :
  (run Js.eval_js Html.parse [] =
     (Exits "JS parsing failed. Check errors.txt.",
      {| errors_txt :=
           [log_line ("[CRITICAL] JS parsing failed: "
                      ++ "Missing 'findagrave' JS object")];
         main_fields := None;
         xlsx := None |}))
  /\ (run Js.eval_js Html.parse Examples.truncated_literal_page =
        (Exits "JS parsing failed. Check errors.txt.",
         {| errors_txt :=
              [log_line ("[CRITICAL] JS parsing failed: "
                         ++ exn_str Js.syntax_error)];
            main_fields := None;
            xlsx := None |})).
Proof.
  split.
  - apply (C1_structured_data_failure_aborts
             Js.eval_js Html.parse []
             (ValueError "Missing 'findagrave' JS object")).
    apply missing_block. reflexivity.
  - apply (C1_structured_data_failure_aborts
             Js.eval_js Html.parse Examples.truncated_literal_page
             Js.syntax_error).
    eapply literal_not_deserialized; reflexivity.
Defined.

Lemma C2_witness :
  exists table,
    xlsx (snd (run Js.eval_js Html.parse Examples.family_page)) = Some table
    /\ table !! "family_parents" = None
    /\ table !! "bio_by" = Some (PyStr "").
Proof.
  destruct (john_doe_run
              Examples.family_page
              (Bs4.Tag "script" []
                 [Bs4.NavigableString Examples.john_doe_declaration])
              eq_refl eq_refl)
    as (mf & Hrun & _).
  exists (sheet (assembled Examples.family_page mf)).
  assert (xlsx (snd (run Js.eval_js Html.parse Examples.family_page))
          = Some (sheet (assembled Examples.family_page mf))) as Htable.
  { rewrite Hrun. reflexivity. }
  split; [exact Htable|].
  destruct (C2_sheet_columns
              Js.eval_js Html.parse Examples.family_page _ Htable)
    as ((_ & Hparents & _) & _ & _ & Hby).
  split; [exact Hparents|exact Hby].
Defined.

Lemma C6_witness :
  exists mf',
    main_fields (snd (step7 Examples.family_page Examples.empty_record))
    = Some mf'
    /\ mf' !! "family_parents" = Some (PyStr "Adam Doe, EveDoe")
    /\ mf' !! "family_spouses" = Some (PyStr "")
    /\ mf' !! "family_children" = Some (PyStr "Abel Doe").
Proof.
  destruct (C6_family_strings
              Examples.family_page Examples.family_members
              Examples.empty_record ∅ eq_refl eq_refl)
    as (mf' & Hstep & Hrel).
  exists mf'. split; [rewrite Hstep; reflexivity|].
  split; [|split].
  - destruct (Hrel "parents") as [H _]; [cbn; auto|].
    apply (H Examples.parents_block). reflexivity.
  - destruct (Hrel "spouses") as [_ H]; [cbn; auto|]. apply H. reflexivity.
  - destruct (Hrel "children") as [H _]; [cbn; auto|].
    apply (H Examples.children_block). reflexivity.
Defined.

Lemma C7_witness :
  Str.markup_free (cleaned Html.parse Examples.prefixed_name) = true
  /\ cleaned Html.parse (cleaned Html.parse Examples.prefixed_name)
     = cleaned Html.parse Examples.prefixed_name.
Proof.
  split; [reflexivity|].
  apply (C7_cleaning_idempotent_on_text Html.parse HtmlFacts.parse_text).
  reflexivity.
Defined.

Lemma C8_witness :
  Bs4.find (Bs4.attr_is "id" "partBio") Examples.no_full_name_page = None
  /\ main_fields
       (snd (step5 Examples.no_full_name_page
                   (snd (step4 Html.parse Examples.no_full_name_object
                               initial))))
     = None
  /\ fst (run Js.eval_js Html.parse Examples.no_full_name_page)
     = Raises name_error_main_fields
  /\ xlsx (snd (run Js.eval_js Html.parse Examples.no_full_name_page)) = None.
Proof.
  destruct (C8_absent_biography_needs_record
              Js.eval_js Html.parse Examples.no_full_name_page eq_refl)
    as (_ & _ & _ & Hstep & Hrun).
  destruct (Hrun Examples.no_full_name_object
                 (TypeError "object of type 'NoneType' has no len()"))
    as (Hrecord & Hraises & _ & _ & Hsheet).
  - vm_compute. reflexivity.
  - reflexivity.
  - split; [reflexivity|]. split; [|split; assumption].
    apply Hstep. exact Hrecord.
Defined.

Lemma C9_witness :
  main_fields
    (snd (step5_1_with
            (Raise (LibraryError "RecursionError"
                                 "maximum recursion depth exceeded"))
            Examples.empty_record))
  = Some (<["Plot" := PyStr ""]> ∅).
Proof.
  destruct (C9_plot_always_set
              Js.eval_js Html.parse
              (Raise (LibraryError "RecursionError"
                                   "maximum recursion depth exceeded"))
              Examples.empty_record ∅ eq_refl)
    as (Hstep & _).
  rewrite Hstep. reflexivity.
Defined.


(** * Further properties *)

(** ** Steps 5 to 7 for any outcome of the lookups *)

Section Markup.

Ltac unfold_steps :=
  unfold markup_steps, script_with, step3, step4, step10,
    step5_with, step5_1_with, step6_with, step7_with, update_family,
    setitem, try_except, bind, call, log_error, system_exit,
    load_main_fields, assign_main_fields, write_sheet.


(** With a record, Steps 5 to 7 return, and what they leave is
    [after_markup] and [markup_log]. *)
Lemma markup_steps_bound l st mf :
  main_fields st = Some mf ->
  markup_steps l st
  = (Returns tt, {| errors_txt := errors_txt st ++ markup_log l;
                    main_fields := Some (after_markup l mf);
                    xlsx := xlsx st |}).
Proof.
  intros Hmf. destruct st as [log mf0 x]. cbn in Hmf. subst mf0.
  destruct l as [[v|e] [w|e'] [p|ep] [i|ei] [[[ps ss] cs]|ef]];
    unfold markup_log, after_markup, after_step7, after_step6, after_step5_1,
      after_step5, step5_failure, failure, data_line;
    unfold_steps; cbn;
    rewrite ?app_nil_r, <- ?app_assoc; reflexivity.
Qed.

Lemma in_markup_keys k :
  In k markup_keys <->
  k = "biography" \/ k = "bio_by" \/ k = "Plot" \/ k = "inscription"
  \/ k = "family_parents" \/ k = "family_spouses" \/ k = "family_children".
Proof. unfold markup_keys. cbn [In]. intuition congruence. Qed.

Lemma after_step5_other l (mf : gmap string pyval) k :
  k <> "biography" -> k <> "bio_by" -> after_step5 l mf !! k = mf !! k.
Proof.
  intros H1 H2. unfold after_step5.
  destruct (bio_lookup l), (by_lookup l);
    rewrite ?lookup_insert_ne by congruence; reflexivity.
Qed.

Lemma after_step5_1_other l (mf : gmap string pyval) k :
  k <> "Plot" -> after_step5_1 l mf !! k = mf !! k.
Proof.
  intros H1. unfold after_step5_1.
  destruct (plot_lookup l); rewrite lookup_insert_ne by congruence;
    reflexivity.
Qed.

Lemma after_step6_other l (mf : gmap string pyval) k :
  k <> "inscription" -> after_step6 l mf !! k = mf !! k.
Proof.
  intros H1. unfold after_step6.
  destruct (inscription_lookup l); rewrite ?lookup_insert_ne by congruence;
    reflexivity.
Qed.

Lemma after_step7_other l (mf : gmap string pyval) k :
  k <> "family_parents" -> k <> "family_spouses" -> k <> "family_children" ->
  after_step7 l mf !! k = mf !! k.
Proof.
  intros H1 H2 H3. unfold after_step7.
  destruct (family_lookup l) as [[[ps ss] cs]|];
    rewrite ?lookup_insert_ne by congruence; reflexivity.
Qed.

Ltac frame :=
  unfold after_markup;
  rewrite ?after_step7_other, ?after_step6_other, ?after_step5_1_other,
    ?after_step5_other by discriminate.

(** X1: with a record, Steps 5 to 7 return whatever their lookups did; they
    leave the sheet as it was, leave every key other than their seven as it
    was, and leave the key [Plot] set. *)
Theorem markup_steps_return l st mf :
  main_fields st = Some mf ->
  exists mf' extra,
    markup_steps l st
    = (Returns tt, {| errors_txt := errors_txt st ++ extra;
                      main_fields := Some mf';
                      xlsx := xlsx st |})
    /\ is_Some (mf' !! "Plot")
    /\ forall k, ~ In k markup_keys -> mf' !! k = mf !! k.
Proof.
  intros Hmf. exists (after_markup l mf), (markup_log l).
  split; [apply markup_steps_bound; assumption|]. split.
  - frame. unfold after_step5_1.
    destruct (plot_lookup l); simplify_map_eq; eauto.
  - intros k Hk. rewrite in_markup_keys in Hk. unfold after_markup.
    rewrite after_step7_other, after_step6_other, after_step5_1_other,
      after_step5_other by (intros ->; tauto).
    reflexivity.
Qed.


(** X3: the biography and its attribution share one [try] block.  When the
    biography lookup raises, [bio_by] is not assigned even if its own lookup
    would return; when only the attribution lookup raises, the biography
    already assigned stays. *)
Theorem biography_block_shared l st mf mf' :
  main_fields st = Some mf ->
  main_fields (snd (markup_steps l st)) = Some mf' ->
  (forall e, bio_lookup l = Raise e ->
             mf' !! "biography" = mf !! "biography"
             /\ mf' !! "bio_by" = mf !! "bio_by")
  /\ (forall v e, bio_lookup l = Ok v -> by_lookup l = Raise e ->
                  mf' !! "biography" = Some v
                  /\ mf' !! "bio_by" = mf !! "bio_by")
  /\ (forall v w, bio_lookup l = Ok v -> by_lookup l = Ok w ->
                  mf' !! "biography" = Some v /\ mf' !! "bio_by" = Some w).
Proof.
  intros Hmf. rewrite (markup_steps_bound _ _ _ Hmf). cbn [snd main_fields].
  intros [= <-]. repeat split; intros; frame; unfold after_step5;
    rewrite ?H, ?H0; simplify_map_eq; reflexivity.
Qed.

(** Without a record, Steps 5 to 7 end in the handler of Step 5.1. *)
Lemma markup_steps_no_record l st :
  main_fields st = None ->
  markup_steps l st
  = (Raises name_error_main_fields,
     {| errors_txt :=
          errors_txt st
          ++ [log_line ("[DATA] Failed to extract biography info: "
                        ++ exn_str (default name_error_main_fields
                                            (failure (bio_lookup l))));
              log_line ("[DATA] Failed to extract Plot: "
                        ++ exn_str (default name_error_main_fields
                                            (failure (plot_lookup l))))];
        main_fields := None;
        xlsx := xlsx st |}).
Proof.
  intros Hmf. destruct st as [log mf0 x]. cbn in Hmf. subst mf0.
  destruct l as [[v|e] by_ [p|ep] i f]; unfold_steps; cbn;
    rewrite <- ?app_assoc; reflexivity.
Qed.

(** X4: without a record, Steps 5 to 7 end in [NameError] whatever their
    lookups did: Step 5 is logged, Step 5.1 is logged and its handler raises
    on the unbound name, Steps 6 and 7 do not run, nothing is written.  Step
    10 after them is not reached either, so its handler, which would log a
    [[SAVE]] line and exit, does not run. *)
Theorem markup_steps_unbound l st :
  main_fields st = None ->
  markup_steps l st
  = (Raises name_error_main_fields,
     {| errors_txt :=
          errors_txt st
          ++ [log_line ("[DATA] Failed to extract biography info: "
                        ++ exn_str (default name_error_main_fields
                                            (failure (bio_lookup l))));
              log_line ("[DATA] Failed to extract Plot: "
                        ++ exn_str (default name_error_main_fields
                                            (failure (plot_lookup l))))];
        main_fields := None;
        xlsx := xlsx st |})
  /\ (markup_steps l >> step10) st = markup_steps l st
  /\ step10 st
     = (Exits "Excel save failed. Check errors.txt.",
        {| errors_txt :=
             errors_txt st
             ++ [log_line ("[SAVE] Failed to save Excel: "
                           ++ exn_str name_error_main_fields)];
           main_fields := None;
           xlsx := xlsx st |}).
Proof.
  intros Hmf. split; [apply markup_steps_no_record; exact Hmf|]. split.
  - unfold bind at 1. rewrite (markup_steps_no_record l st Hmf). reflexivity.
  - unfold_steps. rewrite Hmf. cbn. rewrite Hmf. reflexivity.
Qed.

(** X14: on a page with none of the elements Steps 5 to 7 look for, and
    with a record, the steps return, log nothing and set each of their seven
    keys to the empty string. *)
Theorem markup_absent_defaults soup st mf :
  Bs4.find (fun n => Bs4.is_tag "div" n && Bs4.attr_is "id" "partBio" n) soup
  = None ->
  Bs4.find (fun n => Bs4.is_tag "p" n && Bs4.has_class "text-muted" n) soup
  = None ->
  Bs4.find (fun n => Bs4.is_tag "span" n
                     && Bs4.attr_is "id" "plotValueLabel" n) soup
  = None ->
  Bs4.find (fun n => Bs4.is_tag "div" n && Bs4.has_class "inscription" n) soup
  = None ->
  family_section soup = None ->
  main_fields st = Some mf ->
  exists mf',
    markup_steps (page_lookups soup) st
    = (Returns tt, {| errors_txt := errors_txt st;
                      main_fields := Some mf';
                      xlsx := xlsx st |})
    /\ forall k, In k markup_keys -> mf' !! k = Some (PyStr "").
Proof.
  intros Hbio Hby Hplot Hins Hfam Hmf.
  exists (after_markup (page_lookups soup) mf). split.
  - rewrite (markup_steps_bound _ _ _ Hmf).
    unfold markup_log, page_lookups, step5_failure, failure, data_line.
    cbn. rewrite app_nil_r. reflexivity.
  - intros k Hk. apply in_markup_keys in Hk.
    unfold after_markup, after_step7, after_step6, after_step5_1,
      after_step5, page_lookups, family, family_links, biography, bio_by,
      plot, inscription.
    cbn [bio_lookup by_lookup plot_lookup inscription_lookup family_lookup].
    rewrite Hbio, Hby, Hplot, Hins, Hfam.
    change (Str.join ", " []) with "".
    destruct Hk as [->|[->|[->|[->|[->|[->| ->]]]]]];
      simplify_map_eq; reflexivity.
Qed.

End Markup.


(** ** The whole script for any outcome of the lookups *)

Section Script.

Variable eval_js : string -> result pyval.
Variable html_parser : string -> Bs4.soup.

Ltac unfold_steps :=
  unfold markup_steps, script_with, step3, step4, step10,
    step5_with, step5_1_with, step6_with, step7_with, update_family,
    setitem, try_except, bind, call, log_error, system_exit,
    load_main_fields, assign_main_fields, write_sheet.

(** The script is [script_with] at the lookups of the page. *)
Lemma script_page_lookups soup :
  script eval_js html_parser soup
  = script_with eval_js html_parser soup (page_lookups soup).
Proof. reflexivity. Qed.

Lemma script_with_markup soup l st :
  script_with eval_js html_parser soup l st
  = (do data <- step3 eval_js soup;
     step4 html_parser data >> markup_steps l >> step10) st.
Proof.
  unfold script_with, markup_steps, bind.
  destruct (step3 eval_js soup st) as [[data|e|m] st1]; [|reflexivity..].
  destruct (step4 html_parser data st1) as [[[]|e|m] st2]; [|reflexivity..].
  destruct (step5_with _ _ st2) as [[[]|e|m] st3]; [|reflexivity..].
  destruct (step5_1_with _ st3) as [[[]|e|m] st4]; [|reflexivity..].
  destruct (step6_with _ st4) as [[[]|e|m] st5]; [|reflexivity..].
  destruct (step7_with _ st5) as [[[]|e|m] st6]; reflexivity.
Qed.

Lemma bind_returns {A B} (m : M A) (k : A -> M B) st a st' :
  m st = (Returns a, st') -> bind m k st = k a st'.
Proof. unfold bind. intros ->. reflexivity. Qed.

Lemma bind_raises {A B} (m : M A) (k : A -> M B) st e st' :
  m st = (Raises e, st') -> bind m k st = (Raises e, st').
Proof. unfold bind. intros ->. reflexivity. Qed.

Lemma step3_returns soup st data :
  findagrave_object eval_js soup = Ok data ->
  step3 eval_js soup st = (Returns data, st).
Proof. intros H. unfold step3, try_except, call. rewrite H. reflexivity. Qed.

Lemma step4_binds data st mf :
  main_fields_display html_parser data = Ok mf ->
  step4 html_parser data st
  = (Returns tt, {| errors_txt := errors_txt st;
                    main_fields := Some mf;
                    xlsx := xlsx st |}).
Proof.
  intros H. unfold step4, try_except, call, bind. rewrite H. reflexivity.
Qed.

Lemma step4_logs data st e :
  main_fields_display html_parser data = Raise e ->
  step4 html_parser data st
  = (Returns tt,
     {| errors_txt :=
          errors_txt st
          ++ [log_line ("[DATA] Failed to extract main_fields: "
                        ++ exn_str e)];
        main_fields := main_fields st;
        xlsx := xlsx st |}).
Proof.
  intros H. unfold step4, try_except, call, bind. rewrite H. reflexivity.
Qed.

Lemma step10_writes st mf :
  main_fields st = Some mf ->
  step10 st = (Returns tt, {| errors_txt := errors_txt st;
                              main_fields := Some mf;
                              xlsx := Some (sheet mf) |}).
Proof.
  intros H. unfold_steps. rewrite H. cbn. rewrite H. reflexivity.
Qed.

(** The three ways the script ends, from any state. *)
Lemma script_with_done soup l st data mf :
  findagrave_object eval_js soup = Ok data ->
  main_fields_display html_parser data = Ok mf ->
  script_with eval_js html_parser soup l st
  = (Returns tt, {| errors_txt := errors_txt st ++ markup_log l;
                    main_fields := Some (after_markup l mf);
                    xlsx := Some (sheet (after_markup l mf)) |}).
Proof.
  intros H3 H4. rewrite script_with_markup.
  erewrite bind_returns by (apply step3_returns; exact H3).
  erewrite bind_returns by (apply step4_binds; exact H4).
  erewrite bind_returns by (apply markup_steps_bound; reflexivity).
  erewrite step10_writes by reflexivity. reflexivity.
Qed.

Lemma script_with_no_record soup l st data e :
  findagrave_object eval_js soup = Ok data ->
  main_fields_display html_parser data = Raise e ->
  main_fields st = None ->
  script_with eval_js html_parser soup l st
  = (Raises name_error_main_fields,
     {| errors_txt :=
          errors_txt st
          ++ [log_line ("[DATA] Failed to extract main_fields: " ++ exn_str e);
              log_line ("[DATA] Failed to extract biography info: "
                        ++ exn_str (default name_error_main_fields
                                            (failure (bio_lookup l))));
              log_line ("[DATA] Failed to extract Plot: "
                        ++ exn_str (default name_error_main_fields
                                            (failure (plot_lookup l))))];
        main_fields := None;
        xlsx := xlsx st |}).
Proof.
  intros H3 H4 Hmf. rewrite script_with_markup.
  erewrite bind_returns by (apply step3_returns; exact H3).
  erewrite bind_returns by (apply step4_logs; exact H4).
  erewrite bind_raises by (apply markup_steps_no_record; exact Hmf).
  cbn [errors_txt xlsx]. rewrite <- app_assoc. reflexivity.
Qed.






End Script.


(** ** What Step 4 binds, and what reaches the sheet *)

Section Display.

Variable eval_js : string -> result pyval.
Variable html_parser : string -> Bs4.soup.

(** What a display of Step 4 that evaluates was given, and its value. *)
Lemma main_fields_display_inv data (mf : gmap string pyval) :
  main_fields_display html_parser data = Ok mf ->
  exists props s,
    data = PyJsObject props
    /\ props !! "fullName" = Some (PyStr s)
    /\ mf = list_to_map
              (("full_name", PyStr (cleaned html_parser s))
               :: map (fun '(out, key) =>
                         (out, default PyNone (props !! key)))
                      field_table).
Proof.
  destruct data as [| | | | |props]; try discriminate.
  unfold main_fields_display. cbn [getattr mbind result_bind].
  destruct (props !! "fullName") as [[| | | |s|]|] eqn:Hname;
    try discriminate.
  cbn -[read_fields list_to_map]. rewrite read_fields_object.
  cbn [mbind result_bind].
  intros Heq. exists props, s. split; [reflexivity|]. split; [exact Hname|].
  set (rows := list_to_map _) in *. clearbody rows.
  injection Heq as Heq. symmetry. exact Heq.
Qed.


Lemma sheet_lookup_other (mf : gmap string pyval) k :
  ~ In k columns_to_drop -> sheet mf !! k = mf !! k.
Proof.
  intros Hk. unfold sheet, columns_to_drop in *. cbn [foldr In] in *.
  rewrite !lookup_delete_ne; [reflexivity|..]; intros <-; tauto.
Qed.

Lemma field_table_outputs out key :
  In (out, key) field_table ->
  out <> "full_name" /\ ~ In out markup_keys /\ ~ In out columns_to_drop.
Proof.
  intros Hin.
  assert (forallb (fun p => negb (String.eqb (fst p) "full_name")
                            && negb (existsb (String.eqb (fst p)) markup_keys)
                            && negb (existsb (String.eqb (fst p))
                                             columns_to_drop))
                  field_table = true) as Hall by reflexivity.
  rewrite forallb_forall in Hall. specialize (Hall _ Hin). cbn [fst] in Hall.
  apply andb_true_iff in Hall as [[H1 H2]%andb_true_iff H3].
  apply negb_true_iff in H1, H2, H3. split; [|split].
  - apply String.eqb_neq. exact H1.
  - intros Hk. apply not_true_iff_false in H2. apply H2.
    apply existsb_exists. exists out. split; [exact Hk|apply String.eqb_refl].
  - intros Hk. apply not_true_iff_false in H3. apply H3.
    apply existsb_exists. exists out. split; [exact Hk|apply String.eqb_refl].
Qed.

(** X8: what Step 4 read reaches the sheet unchanged, whatever Steps 5 to 7
    do: each of the 26 renamed columns holds the property of the object, or
    [None] when the object has none, and [full_name] holds the cleaned
    [fullName]. *)
Theorem sheet_values_renamed soup l props table :
  findagrave_object eval_js soup = Ok (PyJsObject props) ->
  xlsx (snd (script_with eval_js html_parser soup l initial)) = Some table ->
  (forall out key,
      In (out, key) field_table ->
      table !! out = Some (default PyNone (props !! key)))
  /\ exists s,
      props !! "fullName" = Some (PyStr s)
      /\ table !! "full_name" = Some (PyStr (cleaned html_parser s)).
Proof.
  intros H3.
  destruct (main_fields_display html_parser (PyJsObject props))
    as [mf|e] eqn:H4.
  - rewrite (script_with_done _ _ _ _ _ _ _ H3 H4). cbn [snd xlsx].
    intros [= <-].
    pose proof H4 as Hiff.
    apply main_fields_display_inv in Hiff as (props' & s & [= <-] & Hname & _).
    destruct (display_of_object html_parser props s Hname)
      as (mf' & H4' & Hfull & Hrest).
    rewrite H4 in H4'. injection H4' as <-.
    assert (forall k, ~ In k markup_keys -> ~ In k columns_to_drop ->
                      sheet (after_markup l mf) !! k = mf !! k) as Hframe.
    { intros k Hk1 Hk2. rewrite sheet_lookup_other by exact Hk2.
      rewrite in_markup_keys in Hk1. unfold after_markup.
      rewrite after_step7_other, after_step6_other, after_step5_1_other,
        after_step5_other by (intros ->; tauto).
      reflexivity. }
    split.
    + intros out key Hin.
      destruct (field_table_outputs out key Hin) as (_ & Hk1 & Hk2).
      rewrite Hframe by assumption. apply Hrest. exact Hin.
    + exists s. split; [exact Hname|].
      rewrite Hframe; [exact Hfull| |];
        cbn [In markup_keys columns_to_drop]; intuition discriminate.
  - rewrite (script_with_no_record _ _ soup l initial _ _ H3 H4 eq_refl).
    discriminate.
Qed.

Lemma fst_field_rows (props : gmap string pyval) :
  map fst (map (fun '(out, key) => (out, default PyNone (props !! key)))
               field_table)
  = map fst field_table.
Proof.
  rewrite map_map. apply map_ext. intros [out key]. reflexivity.
Qed.

Lemma in_existsb k (l : list string) :
  In k l <-> existsb (String.eqb k) l = true.
Proof.
  rewrite existsb_exists. split.
  - intros H. exists k. split; [exact H|apply String.eqb_refl].
  - intros (x & Hx & ->%String.eqb_eq). exact Hx.
Qed.

Lemma list_to_map_is_Some (rows : list (string * pyval)) k :
  is_Some ((list_to_map rows : gmap string pyval) !! k)
  <-> In k (map fst rows).
Proof.
  assert (forall l : list (string * pyval), fst <$> l = map fst l) as Hmap.
  { induction l as [|x l IH]; [reflexivity|]. cbn. rewrite IH. reflexivity. }
  rewrite <- Hmap, <- list_elem_of_In. split.
  - intros Hs. destruct (decide (k ∈ rows.*1)) as [Hk|Hk]; [exact Hk|].
    apply (not_elem_of_list_to_map (M := gmap string)) in Hk.
    rewrite Hk in Hs. destruct Hs as [? [=]].
  - intros Hk. apply not_eq_None_Some. intros Hn.
    apply not_elem_of_list_to_map in Hn. contradiction.
Qed.

(** X9: every sheet the script writes has the same 30 columns, whatever the
    page holds: [full_name], the 26 renamed fields, [biography], [bio_by]
    and [Plot]. *)
Theorem sheet_columns_fixed soup table :
  xlsx (snd (run eval_js html_parser soup)) = Some table ->
  forall k, is_Some (table !! k) <-> In k sheet_columns.
Proof.
  destruct (findagrave_object eval_js soup) as [data|e] eqn:H3.
  - destruct (main_fields_display html_parser data) as [mf|e] eqn:H4.
    + rewrite (run_done _ _ _ _ _ H3 H4). cbn [snd xlsx]. intros [= <-] k.
      apply main_fields_display_inv in H4 as (props & s & -> & Hname & ->).
      set (rows := ("full_name", PyStr (cleaned html_parser s)) :: _).
      assert (map fst rows = "full_name" :: map fst field_table) as Hrows.
      { unfold rows. cbn [map fst]. rewrite fst_field_rows. reflexivity. }
      unfold sheet, assembled, columns_to_drop. cbn [foldr].
      rewrite !lookup_delete, !lookup_insert.
      repeat case_decide; subst.
      1-4: split;
        [intros [? [=]]
        |intros Hin; apply in_existsb in Hin; vm_compute in Hin;
         discriminate Hin].
      1-3: split;
        [intros _; apply in_existsb; vm_compute; reflexivity
        |intros _; eexists; reflexivity].
      rewrite (list_to_map_is_Some rows k), Hrows.
      unfold sheet_columns. cbn [In]. rewrite in_app_iff. cbn [In]. tauto.
    + rewrite (run_no_record _ _ _ _ _ H3 H4). discriminate.
  - rewrite (run_abort _ _ _ _ H3). discriminate.
Qed.

End Display.


(** ** Removing the prefix spans *)

Module TreeFacts.
Import Bs4.
#[local] Open Scope list_scope.

(** Induction on a tree, with the children of a tag covered. *)
Lemma node_nested_ind (P : node -> Prop) :
  (forall s, P (NavigableString s)) ->
  (forall s, P (Comment s)) ->
  (forall nm at_ cs, Forall P cs -> P (Tag nm at_ cs)) ->
  forall n, P n.
Proof.
  intros Hs Hc Ht. fix IH 1. intros [s|s|nm at_ cs].
  - apply Hs.
  - apply Hc.
  - apply Ht. revert cs. fix IHcs 1. intros [|c cs].
    + constructor.
    + constructor; [apply IH|apply IHcs].
Qed.

Lemma descendants_app cs1 cs2 :
  descendants (cs1 ++ cs2) = descendants cs1 ++ descendants cs2.
Proof. unfold descendants. apply flat_map_app. Qed.

Lemma decompose_all_cons p c cs :
  decompose_all p (c :: cs)
  = (if p c then [] else [decompose p c]) ++ decompose_all p cs.
Proof. reflexivity. Qed.

Lemma contents_decompose p n :
  contents (decompose p n) = decompose_all p (contents n).
Proof. destruct n; reflexivity. Qed.

Lemma span_prefix_decompose n :
  span_prefix (decompose span_prefix n) = span_prefix n.
Proof. destruct n; reflexivity. Qed.

Lemma decompose_all_clean top :
  Forall (fun n => span_prefix n = false)
         (descendants (decompose_all span_prefix top)).
Proof.
  assert (forall n, Forall (fun m => span_prefix m = false)
                           (descendants
                              (decompose_all span_prefix (contents n))))
    as Hnode.
  { induction n as [s|s|nm at_ cs IH] using node_nested_ind;
      [constructor..|].
    cbn [contents]. induction IH as [|c cs Hc _ IHcs]; [constructor|].
    rewrite decompose_all_cons, descendants_app.
    apply Forall_app_2; [|exact IHcs].
    destruct (span_prefix c) eqn:Hp; [constructor|].
    rewrite Bs4Facts.descendants_cons. constructor.
    - rewrite span_prefix_decompose. exact Hp.
    - rewrite contents_decompose. apply Forall_app_2; [exact Hc|constructor]. }
  exact (Hnode (Tag "" [] top)).
Qed.

Lemma stripped_strings_app cs1 cs2 :
  stripped_strings (cs1 ++ cs2) = stripped_strings cs1 ++ stripped_strings cs2.
Proof.
  unfold stripped_strings. rewrite descendants_app. apply flat_map_app.
Qed.

Lemma stripped_strings_cons n cs :
  stripped_strings (n :: cs)
  = stripped_strings [n] ++ stripped_strings cs.
Proof. apply (stripped_strings_app [n] cs). Qed.

Lemma stripped_strings_tag nm at_ cs :
  stripped_strings [Tag nm at_ cs] = stripped_strings cs.
Proof.
  unfold stripped_strings. rewrite Bs4Facts.descendants_cons.
  cbn [flat_map contents descendants app]. rewrite app_nil_r. reflexivity.
Qed.

Lemma decompose_all_sublist p top :
  sublist (stripped_strings (decompose_all p top)) (stripped_strings top).
Proof.
  assert (forall n, sublist (stripped_strings
                               (decompose_all p (contents n)))
                            (stripped_strings (contents n))) as Hnode.
  { induction n as [s|s|nm at_ cs IH] using node_nested_ind;
      [constructor..|].
    cbn [contents]. induction IH as [|c cs Hc _ IHcs]; [constructor|].
    rewrite decompose_all_cons, stripped_strings_app.
    rewrite (stripped_strings_cons c cs).
    apply sublist_app; [|exact IHcs].
    destruct (p c); [apply sublist_nil_l|].
    destruct c as [s|s|nm' at' cs']; [reflexivity..|].
    cbn [decompose]. rewrite !stripped_strings_tag. exact Hc. }
  exact (Hnode (Tag "" [] top)).
Qed.

Lemma decompose_all_none p top :
  Forall (fun n => p n = false) (descendants top) -> decompose_all p top = top.
Proof.
  assert (forall n, Forall (fun m => p m = false) (descendants (contents n)) ->
                    decompose_all p (contents n) = contents n) as Hnode.
  { induction n as [s|s|nm at_ cs IH] using node_nested_ind;
      [reflexivity..|].
    cbn [contents]. induction IH as [|c cs Hc _ IHcs]; [reflexivity|].
    rewrite Bs4Facts.descendants_cons. intros Hall.
    apply Forall_cons in Hall as [Hp Hall].
    apply Forall_app in Hall as [Hdeep Hrest].
    rewrite decompose_all_cons, Hp, IHcs by exact Hrest.
    cbn [app]. f_equal.
    destruct c as [s|s|nm' at' cs']; [reflexivity..|].
    cbn [decompose]. f_equal. apply (Hc Hdeep). }
  exact (Hnode (Tag "" [] top)).
Qed.

End TreeFacts.

Section Cleaning.

Variable html_parser : string -> Bs4.soup.

(** X10: after the loop of Step 4 no [span.prefix] element is left in the
    tree of the name, at any depth. *)
Theorem no_prefix_span_left raw_full_name :
  Bs4.find Bs4.span_prefix
           (Bs4.decompose_all Bs4.span_prefix (html_parser raw_full_name))
  = None.
Proof. apply Bs4Facts.find_None, TreeFacts.decompose_all_clean. Qed.

(** X11: cleaning only takes text away: the strings that make the cleaned
    name are, in order, among the stripped strings of the parsed name, and the
    cleaned name is their concatenation. *)
Theorem cleaned_strings_kept raw_full_name :
  exists kept,
    cleaned html_parser raw_full_name = Str.join "" kept
    /\ sublist kept (Bs4.stripped_strings (html_parser raw_full_name)).
Proof.
  eexists. split; [reflexivity|]. apply TreeFacts.decompose_all_sublist.
Qed.

(** X12: a full name whose tree has no [span.prefix] element is cleaned to
    the text of the tree. *)
Theorem cleaned_without_prefix raw_full_name :
  Bs4.find Bs4.span_prefix (html_parser raw_full_name) = None ->
  cleaned html_parser raw_full_name
  = Bs4.get_text_strip (html_parser raw_full_name).
Proof.
  intros H. apply Bs4Facts.find_None in H.
  unfold cleaned, clean_full_name.
  rewrite TreeFacts.decompose_all_none by exact H. reflexivity.
Qed.

(** X13: every text the script extracts is trimmed: the cleaned full name,
    the biography, its attribution, the plot and the inscription neither start
    nor end with white space. *)
Theorem extracted_text_trimmed soup raw_full_name :
  Str.strip (cleaned html_parser raw_full_name)
  = cleaned html_parser raw_full_name
  /\ trimmed_text (biography soup)
  /\ trimmed_text (bio_by soup)
  /\ trimmed_text (plot soup)
  /\ trimmed_text (inscription soup).
Proof.
  split; [apply Bs4Facts.get_text_strip_stripped|].
  unfold trimmed_text, biography, bio_by, plot, inscription, Bs4.text_of.
  repeat split;
    repeat match goal with
      | |- context [match ?x with _ => _ end] => destruct x
      end;
    eexists; (split; [reflexivity|]);
    first [apply Bs4Facts.get_text_strip_stripped|reflexivity].
Qed.

End Cleaning.

(** ** The regular expressions of Step 3 *)

Module ReFacts.
Import Re.

Lemma lit_app p s r : lit p s = Some r -> s = p ++ r.
Proof.
  revert s. induction p as [|a p IH]; intros [|b s]; cbn [lit];
    try discriminate.
  - intros [= <-]. reflexivity.
  - intros [= <-]. reflexivity.
  - destruct (Ascii.eqb a b) eqn:Hab; [|discriminate].
    apply Ascii.eqb_eq in Hab. subst b. intros H.
    change (String a s = String a (p ++ r)). f_equal. apply IH. exact H.
Qed.

Lemma lstrip_suffix s : exists ws, s = ws ++ Str.lstrip s.
Proof.
  induction s as [|c s [ws IH]]; [exists ""; reflexivity|].
  cbn [Str.lstrip]. destruct (Str.is_space c).
  - exists (String c ws).
    change (String c s = String c (ws ++ Str.lstrip s)). f_equal. exact IH.
  - exists "". reflexivity.
Qed.

Lemma spaces1_suffix s r : spaces1 s = Some r -> exists ws, s = ws ++ r.
Proof.
  destruct s as [|c s]; [discriminate|]. cbn [spaces1].
  destruct (Str.is_space c); [|discriminate]. intros [= <-].
  destruct (lstrip_suffix s) as [ws Hws]. exists (String c ws).
  change (String c s = String c (ws ++ spaces s)). f_equal. exact Hws.
Qed.

Lemma decl_here_suffix s r : decl_here s = Some r -> exists d, s = d ++ r.
Proof.
  unfold decl_here.
  destruct (lit "var" s) as [r1|] eqn:H1; [|discriminate].
  cbn [mbind option_bind].
  destruct (spaces1 r1) as [r2|] eqn:H2; [|discriminate].
  cbn [mbind option_bind].
  destruct (lit "findagrave" r2) as [r3|] eqn:H3; [|discriminate].
  cbn [mbind option_bind]. intros H4.
  apply lit_app in H1, H3, H4.
  apply spaces1_suffix in H2 as [ws2 H2].
  destruct (lstrip_suffix r3) as [ws3 Hws3]. unfold spaces in H4.
  exists ("var" ++ ws2 ++ "findagrave" ++ ws3 ++ "=").
  rewrite H1, H2, H3, Hws3, H4.
  rewrite !StrFacts.append_assoc. reflexivity.
Qed.

Lemma closing_here_prefix s :
  closing_here s = true -> exists r, s = "};" ++ r.
Proof.
  unfold closing_here.
  destruct (lit "};" s) as [r|] eqn:H; [|discriminate].
  intros _. exists r. apply lit_app. exact H.
Qed.

Lemma append_nil_inv a b : a ++ b = "" -> a = "" /\ b = "".
Proof. destruct a; [intros H; split; [reflexivity|exact H]|discriminate]. Qed.

(** [.*?] takes the shortest run after which the rest of the pattern
    matches. *)
Lemma lazy_any_shortest acc s out :
  lazy_any acc s = Some out ->
  exists body rest,
    out = acc ++ body /\ s = body ++ rest /\ closing_here rest = true
    /\ forall b1 b2, body = b1 ++ b2 -> b2 <> "" ->
                     closing_here (b2 ++ rest) = false.
Proof.
  revert acc. induction s as [|c s IH]; intros acc.
  - cbn [lazy_any]. destruct (closing_here "") eqn:E; [|discriminate].
    vm_compute in E. discriminate.
  - cbn [lazy_any]. destruct (closing_here (String c s)) eqn:E.
    + intros [= <-]. exists "", (String c s).
      split; [symmetry; apply StrFacts.append_empty|].
      split; [reflexivity|]. split; [exact E|].
      intros b1 b2 Hb Hne. symmetry in Hb.
      apply append_nil_inv in Hb as [_ Hb]. contradiction.
    + intros H. apply IH in H as (body & rest & -> & -> & Hrest & Hmin).
      exists (String c body), rest.
      split; [apply StrFacts.append_assoc|].
      split; [reflexivity|]. split; [exact Hrest|].
      intros [|d b1] b2 Hb Hne.
      * change (String c body = b2) in Hb. subst b2. exact E.
      * change (String c body = String d (b1 ++ b2)) in Hb.
        injection Hb as _ Hb. apply (Hmin b1 b2 Hb Hne).
Qed.

Lemma object_here_group s g :
  object_here s = Some g ->
  exists pre body post,
    g = "{" ++ body ++ "}" /\ s = pre ++ g ++ ";" ++ post
    /\ forall b1 b2, body = b1 ++ b2 -> b2 <> "" ->
                     closing_here (b2 ++ "};" ++ post) = false.
Proof.
  unfold object_here.
  destruct (decl_here s) as [r1|] eqn:H1; [|discriminate].
  cbn [mbind option_bind].
  destruct (lit "{" (spaces r1)) as [r2|] eqn:H2; [|discriminate].
  cbn [mbind option_bind].
  destruct (lazy_any "" r2) as [body|] eqn:H3; [|discriminate].
  cbn [mbind option_bind]. intros [= <-].
  apply decl_here_suffix in H1 as [d H1]. apply lit_app in H2.
  destruct (lstrip_suffix r1) as [ws Hws]. unfold spaces in H2.
  apply lazy_any_shortest in H3 as (body' & rest & Hbody & Hr2 & Hrest & Hmin).
  change ("" ++ body') with body' in Hbody. subst body'.
  apply closing_here_prefix in Hrest as [post Hpost]. subst rest.
  exists (d ++ ws), body, post. split; [reflexivity|]. split.
  - rewrite H1, Hws, H2, Hr2. rewrite !StrFacts.append_assoc. reflexivity.
  - exact Hmin.
Qed.

Lemma object_here_decl s g : object_here s = Some g -> decl_here s <> None.
Proof.
  unfold object_here. destruct (decl_here s); [discriminate|].
  intros [=].
Qed.

End ReFacts.

Section Patterns.

(** X15: when the pattern of Step 3 matches, group 1 is an opening brace,
    a body and a closing brace; it is followed in the script by [;]; and the
    body is the shortest one: the rest of the pattern matches at no closing
    brace inside it. *)
Theorem search_object_group s g :
  Re.search_object s = Some g ->
  exists pre body post,
    g = "{" ++ body ++ "}" /\ s = pre ++ g ++ ";" ++ post
    /\ forall b1 b2, body = b1 ++ b2 -> b2 <> "" ->
                     Re.closing_here (b2 ++ "};" ++ post) = false.
Proof.
  induction s as [|c s IH]; cbn [Re.search_object].
  - destruct (Re.object_here "") as [g'|] eqn:H; [|discriminate].
    intros [= <-]. apply ReFacts.object_here_group. exact H.
  - destruct (Re.object_here (String c s)) as [g'|] eqn:H.
    + intros [= <-]. apply ReFacts.object_here_group. exact H.
    + intros Hs. apply IH in Hs as (pre & body & post & Hg & -> & Hmin).
      exists (String c pre), body, post. split; [exact Hg|].
      split; [reflexivity|exact Hmin].
Qed.

(** X16: the pattern the script element is found with matches wherever the
    pattern of the object matches: a script the object can be isolated in is
    one the filter of [find] accepts. *)
Theorem search_object_decl s g :
  Re.search_object s = Some g -> Re.search_decl s = true.
Proof.
  induction s as [|c s IH]; cbn [Re.search_object Re.search_decl].
  - destruct (Re.object_here "") as [g'|] eqn:H; [|discriminate].
    apply ReFacts.object_here_decl in H.
    destruct (Re.decl_here ""); [reflexivity|contradiction].
  - destruct (Re.object_here (String c s)) as [g'|] eqn:H.
    + apply ReFacts.object_here_decl in H.
      destruct (Re.decl_here (String c s)); [reflexivity|contradiction].
    + intros Hs. destruct (Re.decl_here (String c s)); [reflexivity|].
      apply IH. exact Hs.
Qed.

End Patterns.

(** ** The further properties at the example pages *)

Lemma markup_steps_return_witness :
  exists mf' extra,
    markup_steps mixed_lookups Examples.empty_record
    = (Returns tt, {| errors_txt := errors_txt Examples.empty_record ++ extra;
                      main_fields := Some mf';
                      xlsx := xlsx Examples.empty_record |})
    /\ is_Some (mf' !! "Plot")
    /\ forall k, ~ In k markup_keys -> mf' !! k = (∅ : record) !! k.
Proof.
  exact (markup_steps_return mixed_lookups Examples.empty_record ∅ eq_refl).
Defined.


Lemma biography_block_shared_witness :
  after_markup mixed_lookups ∅ !! "biography" = Some (PyStr "Born in Ohio.")
  /\ after_markup mixed_lookups ∅ !! "bio_by" = (∅ : record) !! "bio_by".
Proof.
  destruct (biography_block_shared
              mixed_lookups Examples.empty_record ∅
              (after_markup mixed_lookups ∅) eq_refl
              (f_equal (fun r => main_fields (snd r))
                       (markup_steps_bound mixed_lookups
                                           Examples.empty_record ∅ eq_refl)))
    as (_ & Hby & _).
  eapply Hby; reflexivity.
Defined.

Lemma markup_steps_unbound_witness :
  markup_steps mixed_lookups initial
  = (Raises name_error_main_fields,
     {| errors_txt :=
          [log_line ("[DATA] Failed to extract biography info: "
                     ++ "name 'main_fields' is not defined");
           log_line ("[DATA] Failed to extract Plot: "
                     ++ "maximum recursion depth exceeded")];
        main_fields := None;
        xlsx := None |}).
Proof. exact (proj1 (markup_steps_unbound mixed_lookups initial eq_refl)). Defined.

Lemma markup_absent_defaults_witness :
  exists mf',
    markup_steps (page_lookups Examples.john_doe_page) Examples.empty_record
    = (Returns tt, {| errors_txt := errors_txt Examples.empty_record;
                      main_fields := Some mf';
                      xlsx := xlsx Examples.empty_record |})
    /\ forall k, In k markup_keys -> mf' !! k = Some (PyStr "").
Proof.
  apply (markup_absent_defaults Examples.john_doe_page Examples.empty_record ∅);
    reflexivity.
Defined.

Lemma sheet_values_renamed_witness :
  exists table,
    xlsx (snd (script_with Js.eval_js Html.parse Examples.john_doe_page
                           mixed_lookups initial))
    = Some table
    /\ table !! "first_name" = Some (PyStr "John")
    /\ table !! "death_year" = Some (PyInt 1944)
    /\ table !! "cemetery_name" = Some PyNone.
Proof.
  destruct john_doe_display as (mf & H4 & _).
  pose proof (script_with_done
                Js.eval_js Html.parse Examples.john_doe_page mixed_lookups
                initial _ _ eval_john_doe H4) as Hrun.
  exists (sheet (after_markup mixed_lookups mf)).
  assert (xlsx (snd (script_with Js.eval_js Html.parse Examples.john_doe_page
                                 mixed_lookups initial))
          = Some (sheet (after_markup mixed_lookups mf))) as Htable.
  { rewrite Hrun. reflexivity. }
  split; [exact Htable|].
  destruct (sheet_values_renamed
              Js.eval_js Html.parse Examples.john_doe_page mixed_lookups
              Examples.john_doe_properties _ eval_john_doe Htable)
    as (Hrows & _).
  split; [|split].
  - apply (Hrows "first_name" "firstName").
    unfold field_table. cbn [In]. repeat (first [left; reflexivity|right]).
  - apply (Hrows "death_year" "deathYear").
    unfold field_table. cbn [In]. repeat (first [left; reflexivity|right]).
  - apply (Hrows "cemetery_name" "cemeteryName").
    unfold field_table. cbn [In]. repeat (first [left; reflexivity|right]).
Defined.

Lemma sheet_columns_fixed_witness :
  exists table,
    xlsx (snd (run Js.eval_js Html.parse Examples.family_page)) = Some table
    /\ is_Some (table !! "Plot")
    /\ ~ is_Some (table !! "family_parents").
Proof.
  destruct (john_doe_run
              Examples.family_page
              (Bs4.Tag "script" []
                 [Bs4.NavigableString Examples.john_doe_declaration])
              eq_refl eq_refl)
    as (mf & Hrun & _).
  exists (sheet (assembled Examples.family_page mf)).
  assert (xlsx (snd (run Js.eval_js Html.parse Examples.family_page))
          = Some (sheet (assembled Examples.family_page mf))) as Htable.
  { rewrite Hrun. reflexivity. }
  split; [exact Htable|].
  pose proof (sheet_columns_fixed
                Js.eval_js Html.parse Examples.family_page _ Htable) as Hcols.
  split.
  - apply Hcols. apply in_existsb. reflexivity.
  - intros Hin. apply Hcols in Hin. apply in_existsb in Hin.
    vm_compute in Hin. discriminate Hin.
Defined.

Lemma cleaned_without_prefix_witness :
  cleaned Html.parse "<b>John</b> Doe"
  = Bs4.get_text_strip (Html.parse "<b>John</b> Doe").
Proof. apply (cleaned_without_prefix Html.parse). reflexivity. Defined.

Lemma search_object_group_witness :
  exists pre body post,
    "{a: 1}; y = {}" = "{" ++ body ++ "}"
    /\ "x = 1; var  findagrave={a: 1}; y = {}; var htmlSnippets"
       = pre ++ "{a: 1}; y = {}" ++ ";" ++ post
    /\ forall b1 b2, body = b1 ++ b2 -> b2 <> "" ->
                     Re.closing_here (b2 ++ "};" ++ post) = false.
Proof.
  apply (search_object_group
           "x = 1; var  findagrave={a: 1}; y = {}; var htmlSnippets").
  reflexivity.
Defined.

Lemma search_object_decl_witness :
  Re.search_decl Examples.john_doe_declaration = true.
Proof.
  destruct (Re.search_object Examples.john_doe_declaration) as [g|] eqn:H.
  - exact (search_object_decl _ _ H).
  - vm_compute in H. discriminate H.
Defined.
